(** * Structural alignment and scoring core of QDockBank/Databank_Creation

    Shallow embedding of the segment extractors and of the superposition
    wrapper found in

    - [Affinity_RMSD_caculate/RMSD_Q.py]   ([parse_pdbqt], [parse_real_pdb],
      [compute_rmsd]),
    - [Affinity_RMSD_caculate/RMSD_af.py]  (a second copy of the three),
    - [Dataset_info/vis_protein_rmsd/vis_rmde.py] ([extract_ca_atoms] and the
      alignment step of [main]),

    together with the properties of these functions.

    Conventions of the embedding.
    - A Python computation that may raise is a value of [result]; a
      [try]/[except] is [try_except].
    - Text is [string] (the files read are ASCII); a text file is the list
      of lines its iteration yields.
    - Python's [float(...)] and Bio.PDB's [Superimposer] belong to the
      interpreter and to a third-party library; they are interfaces
      ([PyFloat], [Superimposer]) of which the functions are clients.
    - Objects with a mutable [coord] attribute (Bio.PDB atoms, the
      [DummyAtom] wrappers) live in a store indexed by object identity. *)

From Stdlib Require Import Ascii String ZArith QArith Qround Lia DecimalString DecimalNat.
From stdpp Require Import base option list gmap strings.

Set Default Proof Using "Type".
Local Open Scope Z_scope.

(** ** Python runtime: exceptions, results, string methods *)

Module Py.

(** Keys used in [__getitem__] lookups of Bio.PDB entities. *)
Inductive key :=
  | KInt (i : Z)
  | KStr (s : string).

Inductive exn :=
  | IndexError
  | ValueError
  | KeyError (k : key)
  | AttributeError
  | PDBException.

Inductive result (A : Type) :=
  | Ok (a : A)
  | Raise (e : exn).
Arguments Ok {A} a.
Arguments Raise {A} e.

#[export] Instance result_ret : MRet result := fun A a => Ok a.
#[export] Instance result_bind : MBind result := fun A B f m =>
  match m with
  | Ok a => f a
  | Raise e => Raise e
  end.
#[export] Instance result_fmap : FMap result := fun A B f m =>
  match m with
  | Ok a => Ok (f a)
  | Raise e => Raise e
  end.

(** [except (IndexError, ValueError):] -- the exception classes a handler
    names. *)
Definition index_or_value_error (e : exn) : bool :=
  match e with
  | IndexError | ValueError => true
  | _ => false
  end.

(** [try: body / except <handles>: handler]; the success continuation is
    applied by the caller, other exceptions propagate. *)
Definition try_except {A} (body : result A) (handles : exn → bool)
    (handler : result A) : result A :=
  match body with
  | Ok a => Ok a
  | Raise e => if handles e then handler else Raise e
  end.

(** [parts[i]] on a list. *)
Definition getitem {A} (l : list A) (i : nat) : result A :=
  match l !! i with
  | Some a => Ok a
  | None => Raise IndexError
  end.

(** [str.isspace] on the ASCII range: TAB, LF, VT, FF, CR, FS, GS, RS, US
    and the blank. *)
Definition isspace (a : ascii) : bool :=
  let n := N_of_ascii a in
  ((9 <=? n) && (n <=? 13) || (28 <=? n) && (n <=? 32))%N.

Fixpoint lstrip (s : string) : string :=
  match s with
  | EmptyString => EmptyString
  | String a s' => if isspace a then lstrip s' else s
  end.

(** [rstrip] keeps a character when it is not a space or when something
    survives to its right. *)
Fixpoint rstrip (s : string) : string :=
  match s with
  | EmptyString => EmptyString
  | String a s' =>
      match rstrip s' with
      | EmptyString => if isspace a then EmptyString else String a EmptyString
      | r => String a r
      end
  end.

(** [s.strip()] *)
Definition strip (s : string) : string := rstrip (lstrip s).

(** [s.startswith(p)] *)
Fixpoint startswith (s p : string) : bool :=
  match p, s with
  | EmptyString, _ => true
  | String b p', String a s' => if Ascii.eqb a b then startswith s' p' else false
  | String _ _, EmptyString => false
  end.

(** [sub in s] *)
Fixpoint contains (sub s : string) : bool :=
  startswith s sub ||
  match s with
  | EmptyString => false
  | String _ s' => contains sub s'
  end.

(** [s.split()]: maximal runs of non-space characters, in order.  [cur] is
    the run being read, reversed. *)
Fixpoint split_go (cur : option string) (s : string) : list string :=
  match s with
  | EmptyString =>
      match cur with
      | Some w => [String.rev w]
      | None => []
      end
  | String a s' =>
      if isspace a then
        match cur with
        | Some w => String.rev w :: split_go None s'
        | None => split_go None s'
        end
      else split_go (Some (String a (default EmptyString cur))) s'
  end.

Definition split (s : string) : list string := split_go None s.

(** Control signal of a loop body: fall through to the next iteration, or
    [break]. *)
Inductive flow := Next | Break.

(** [for x in xs: body] with [break], over a loop state [S].  Returns the
    final state and the items never reached. *)
Fixpoint for_each {X S} (body : X → S → result (flow * S)) (xs : list X)
    (st : S) : result (S * list X) :=
  match xs with
  | [] => Ok (st, [])
  | x :: rest =>
      r ← body x st;
      match r with
      | (Break, st') => Ok (st', rest)
      | (Next, st') => for_each body rest st'
      end
  end.

(** [for x in xs: body] without [break]. *)
Fixpoint for_in {X S} (body : X → S → result S) (xs : list X) (st : S)
    : result S :=
  match xs with
  | [] => Ok st
  | x :: rest => st' ← body x st; for_in body rest st'
  end.

(** A [dict] with string keys: the items in insertion order, one per
    key. *)
Definition dict (V : Type) : Type := list (string * V).

(** [d[k] = v]: a key already present keeps its place. *)
Fixpoint dict_setitem {V} (k : string) (v : V) (d : dict V) : dict V :=
  match d with
  | [] => [(k, v)]
  | (k', v') :: d' =>
      if String.eqb k' k then (k', v) :: d'
      else (k', v') :: dict_setitem k v d'
  end.

(** [d.get(k)] *)
Fixpoint dict_get {V} (k : string) (d : dict V) : option V :=
  match d with
  | [] => None
  | (k', v) :: d' => if String.eqb k' k then Some v else dict_get k d'
  end.

(** [k in d] *)
Definition dict_contains {V} (k : string) (d : dict V) : bool :=
  match dict_get k d with
  | Some _ => true
  | None => false
  end.

(** [d[k]] *)
Definition dict_getitem {V} (d : dict V) (k : string) : result V :=
  match dict_get k d with
  | Some v => Ok v
  | None => Raise (KeyError (KStr k))
  end.

(** [s.endswith("/")] *)
Fixpoint endswith_slash (s : string) : bool :=
  match s with
  | EmptyString => false
  | String a EmptyString => Ascii.eqb a "/"
  | String _ s' => endswith_slash s'
  end.

(** [os.path.join(a, b)] on a POSIX system. *)
Definition path_join (a b : string) : string :=
  if startswith b "/" then b
  else if String.eqb a "" || endswith_slash a then a +:+ b
  else a +:+ "/" +:+ b.

(** [str(n)] of a non-negative and of an arbitrary integer. *)
Definition str_of_nat (n : nat) : string :=
  NilEmpty.string_of_uint (Nat.to_uint n).
Definition str_of_Z (z : Z) : string :=
  NilEmpty.string_of_int (Z.to_int z).

(** The tabulation and the newline. *)
Definition TAB : string := String (ascii_of_nat 9) EmptyString.
Definition NL : string := String (ascii_of_nat 10) EmptyString.

(** The decimal digits [0] to [9], which [\d] matches in ASCII text. *)
Definition isdigit (a : ascii) : bool :=
  let n := N_of_ascii a in ((48 <=? n) && (n <=? 57))%N.

(** The value of a run of decimal digits, most significant first. *)
Fixpoint digits_value (acc : Z) (s : string) : Z :=
  match s with
  | EmptyString => acc
  | String a s' => digits_value (10 * acc + Z.of_N (N_of_ascii a - 48)) s'
  end.

(** The interpreter's [sys.get_int_max_str_digits()]: 0 when conversions
    are unlimited, as in interpreters without the limit. *)
Class PyInt := { int_max_str_digits : nat }.

(** [int(s)] for [s] a non-empty run of decimal digits; a run longer than
    the limit is refused. *)
Definition int_of_digits `{PyInt} (s : string) : result Z :=
  if ((0 <? int_max_str_digits) && (int_max_str_digits <? String.length s))%nat
  then Raise ValueError
  else Ok (digits_value 0 s).

(** The longest prefix of characters satisfying [f], and the rest. *)
Fixpoint span (f : ascii → bool) (s : string) : string * string :=
  match s with
  | EmptyString => (EmptyString, EmptyString)
  | String a s' =>
      if f a then let '(run, rest) := span f s' in (String a run, rest)
      else (EmptyString, s)
  end.

(** Lower case of an ASCII letter. *)
Definition lower (a : ascii) : ascii :=
  let n := N_of_ascii a in
  if ((65 <=? n) && (n <=? 90))%N then ascii_of_N (n + 32) else a.

(** The rest of [s] after the prefix [p], letters compared without regard
    to case ([p] is in lower case). *)
Fixpoint after_prefix_nocase (p s : string) : option string :=
  match p, s with
  | EmptyString, _ => Some s
  | String b p', String a s' =>
      if Ascii.eqb (lower a) b then after_prefix_nocase p' s' else None
  | String _ _, EmptyString => None
  end.

End Py.
Export Py.

(** Python's [float] type and the conversion [float(s)] of a string;
    [None] stands for [ValueError]. *)
Class PyFloat := {
  float : Type;
  float_of_string : string → option float;
}.

Definition py_float `{PyFloat} (s : string) : result float :=
  match float_of_string s with
  | Some x => Ok x
  | None => Raise ValueError
  end.

(** A coordinate tuple [(x, y, z)]. *)
Definition coord `{PyFloat} : Type := float * float * float.

(** ** Bio.PDB: the entity tree and the superimposer *)

Module BioPDB.

(** The structure/model/chain/residue/atom hierarchy.  Every entity keeps
    its children in insertion (file) order and finds them by id; [A] is the
    representation of the atoms at the leaves. *)
Record Residue (A : Type) := {
  hetfield : string;
  resseq : Z;
  icode : string;
  atoms : list (string * A);
}.
Arguments hetfield {A} _.
Arguments resseq {A} _.
Arguments icode {A} _.
Arguments atoms {A} _.

Record Chain (A : Type) := {
  chain_id : string;
  residues : list (Residue A);
}.
Arguments chain_id {A} _.
Arguments residues {A} _.

Record Model (A : Type) := {
  model_id : Z;
  chains : list (Chain A);
}.
Arguments model_id {A} _.
Arguments chains {A} _.

Record Structure (A : Type) := {
  models : list (Model A);
}.
Arguments models {A} _.

Section Entities.
Context {A : Type}.

(** [residue.child_dict.get(name)] *)
Fixpoint atom_named (name : string) (l : list (string * A)) : option A :=
  match l with
  | [] => None
  | (n, a) :: l' => if String.eqb n name then Some a else atom_named name l'
  end.

(** [name in residue] *)
Definition residue_contains (name : string) (residue : Residue A) : bool :=
  match atom_named name (atoms residue) with
  | Some _ => true
  | None => false
  end.

(** [residue[name]] *)
Definition residue_getitem (residue : Residue A) (name : string) : result A :=
  match atom_named name (atoms residue) with
  | Some a => Ok a
  | None => Raise (KeyError (KStr name))
  end.

(** [model[chain_id]] *)
Definition model_getitem (model : Model A) (id : string) : result (Chain A) :=
  match List.find (fun c => String.eqb (chain_id c) id) (chains model) with
  | Some c => Ok c
  | None => Raise (KeyError (KStr id))
  end.

(** [structure[id]] *)
Definition structure_getitem (structure : Structure A) (id : Z)
    : result (Model A) :=
  match List.find (fun m => model_id m =? id) (models structure) with
  | Some m => Ok m
  | None => Raise (KeyError (KInt id))
  end.

(** [entity.get_atoms()], unfolded level by level. *)
Definition residue_get_atoms (residue : Residue A) : list A :=
  snd <$> atoms residue.
Definition chain_get_atoms (chain : Chain A) : list A :=
  residues chain ≫= residue_get_atoms.
Definition model_get_atoms (model : Model A) : list A :=
  chains model ≫= chain_get_atoms.
Definition get_atoms (structure : Structure A) : list A :=
  models structure ≫= model_get_atoms.
End Entities.

(** An atom as the parser builds it; only the [coord] attribute is read. *)
Record Atom `{PyFloat} := { atom_coord : coord }.

(** The numerical core of [Bio.PDB.Superimposer]: from the fixed and the
    moving coordinates, the RMSD and the rotation/translation; and the
    action of a rotation/translation on one coordinate
    ([Atom.transform]). *)
Class Superimposer `{PyFloat} := {
  rotran : Type;
  superimpose : list coord → list coord → float * rotran;
  transform : rotran → coord → coord;
}.

Section Objects.
Context `{PyFloat}.

(** Object identities, and the [coord] attribute of every live object. *)
Definition loc := nat.
Abbreviation store := (gmap loc coord).

(** Computations that read and write the store, and may raise. *)
Definition M (X : Type) : Type := store → result (X * store).

#[export] Instance M_ret : MRet M := fun X x h => Ok (x, h).
#[export] Instance M_bind : MBind M := fun X Y f m h =>
  match m h with
  | Ok (x, h') => f x h'
  | Raise e => Raise e
  end.

Definition raise {X} (e : exn) : M X := fun _ => Raise e.
Definition lift {X} (r : result X) : M X := fun h =>
  match r with
  | Ok x => Ok (x, h)
  | Raise e => Raise e
  end.

(** [obj.get_coord()] *)
Definition get_coord (l : loc) : M coord := fun h =>
  match h !! l with
  | Some c => Ok (c, h)
  | None => Raise AttributeError
  end.

(** [obj.coord = c] *)
Definition set_coord (l : loc) (c : coord) : M unit := fun h =>
  Ok (tt, <[l := c]> h).

(** Construction of an object whose [coord] is [c]. *)
Definition new (c : coord) : M loc := fun h =>
  let l := fresh (dom h) in Ok (l, <[l := c]> h).

Fixpoint mapM {X Y} (f : X → M Y) (xs : list X) : M (list Y) :=
  match xs with
  | [] => mret []
  | x :: rest => y ← f x; ys ← mapM f rest; mret (y :: ys)
  end.

Context `{!Superimposer}.

(** [sup.set_atoms(fixed, moving)]; the result is the pair
    [(sup.rms, sup.rotran)]. *)
Definition set_atoms (fixed moving : list loc) : M (float * rotran) :=
  if bool_decide (length fixed = length moving) then
    fixed_coord ← mapM get_coord fixed;
    moving_coord ← mapM get_coord moving;
    mret (superimpose fixed_coord moving_coord)
  else raise PDBException.

(** [atom.transform(rot, tran)] *)
Definition atom_transform (rt : rotran) (atom : loc) : M unit :=
  c ← get_coord atom; set_coord atom (transform rt c).

(** [sup.apply(atom_list)] *)
Fixpoint apply (rt : rotran) (atom_list : list loc) : M unit :=
  match atom_list with
  | [] => mret tt
  | atom :: rest => _ ← atom_transform rt atom; apply rt rest
  end.
End Objects.

End BioPDB.
Export BioPDB.

(** ** The environment of the batch drivers *)

(** The format specification [{x:.3f}] of an f-string. *)
Class PyFormat `{PyFloat} := { format_3f : float → string }.

(** The files the drivers read: whether a path names a regular file
    ([os.path.isfile]), the lines of a text file that exists, and the
    structure the PDB parser builds from a file that exists.  Opening a
    file that does not exist, or cannot be read or written, is outside
    the model: the statements about [main] assume the list files exist. *)
Class FileSystem `{PyFloat} := {
  isfile : string → bool;
  readlines : string → list string;
  get_structure : string → Structure Atom;
}.

(** What a driver emits: the text written to the output file and the
    lines printed, both in order. *)
Record output := { written : list string; printed : list string }.

(** ** Affinity_RMSD_caculate/RMSD_Q.py *)

Module RMSD_Q.
Section RMSD_Q.
Context `{PyFloat}.

Definition TOP_LIST_FILE : string := "create_benchmark/top_selected.txt".
Definition INDEX_FILE : string := "benchmark_index.txt".
Definition PREDICTED_DIR : string := "pdbqt/protein_pdbqt".
Definition REAL_STRUCT_DIR : string := "selected".
Definition OUTPUT_RMSD_FILE : string :=
  "../Dataset_info/plt/with_af3/result_summary/q_rmsd_summary.txt".

(** [parse_top_list(filename)], on the lines of the file. *)
Definition parse_top_list (lines : list string) : result (dict string) :=
  for_in (fun line top_dict =>
    let line_s := strip line in
    if String.eqb line_s "" || startswith line_s "#" then mret top_dict
    else
      let parts := split line_s in
      if (length parts <? 2)%nat then mret top_dict
      else
        pdb_id ← getitem parts 0;
        top_name ← getitem parts 1;
        mret (dict_setitem pdb_id top_name top_dict))
    lines [].

(** [residue_pat = re.compile(r'Residues\s+(\d+)-(\d+)', re.IGNORECASE)],
    matched at the start of [s]: the two groups.  Each repetition takes the
    whole run; giving characters back cannot help, since what follows a run
    of spaces must be a digit and what follows the first run of digits must
    be the hyphen. *)
Definition residue_pat_match (s : string) : option (string * string) :=
  rest ← after_prefix_nocase "residues" s;
  let '(spaces, rest) := span isspace rest in
  if String.eqb spaces "" then None
  else
    let '(group1, rest) := span isdigit rest in
    if String.eqb group1 "" then None
    else
      match rest with
      | String "-" rest =>
          let '(group2, _) := span isdigit rest in
          if String.eqb group2 "" then None else Some (group1, group2)
      | _ => None
      end.

(** [residue_pat.search(s)]: the match at the leftmost position that has
    one. *)
Fixpoint residue_pat_search (s : string) : option (string * string) :=
  match residue_pat_match s with
  | Some groups => Some groups
  | None =>
      match s with
      | EmptyString => None
      | String _ s' => residue_pat_search s'
      end
  end.

(** [parse_index_file(index_path)], on the lines of the file. *)
Definition parse_index_file `{PyInt} (lines : list string)
    : result (dict (string * Z * Z)) :=
  for_in (fun line index_dict =>
    let line_s := strip line in
    if String.eqb line_s "" then mret index_dict
    else if startswith line_s "[" || startswith line_s "length_"
    then mret index_dict
    else
      let parts := split line_s in
      if (length parts <? 5)%nat then mret index_dict
      else
        pdb_id ← getitem parts 0;
        chain_id ← getitem parts 2;
        match residue_pat_search line_s with
        | Some (group1, group2) =>
            start_res ← int_of_digits group1;
            end_res ← int_of_digits group2;
            mret (dict_setitem pdb_id (chain_id, start_res, end_res)
                               index_dict)
        | None => mret index_dict
        end)
    lines [].

(** The [try] block of [parse_pdbqt]:
    [x = float(parts[6]); y = float(parts[7]); z = float(parts[8])]. *)
Definition read_xyz (parts : list string) : result coord :=
  x ← getitem parts 6 ≫= py_float;
  y ← getitem parts 7 ≫= py_float;
  z ← getitem parts 8 ≫= py_float;
  mret (x, y, z).

(** One iteration of the loop of [parse_pdbqt]; the loop state is
    [(coords, current_ca_count)]. *)
Definition parse_pdbqt_body (length : Z) (line : string)
    (st : list coord * Z) : result (flow * (list coord * Z)) :=
  let line_s := strip line in
  if negb (startswith line_s "ATOM") then mret (Next, st)
  else if negb (contains " CA " line_s) then mret (Next, st)
  else
    let parts := split line_s in
    r ← try_except (Some <$> read_xyz parts) index_or_value_error (mret None);
    match r with
    | None => mret (Next, st)
    | Some xyz =>
        let coords := st.1 ++ [xyz] in
        let current_ca_count := st.2 + 1 in
        if length <=? current_ca_count
        then mret (Break, (coords, current_ca_count))
        else mret (Next, (coords, current_ca_count))
    end.

(** The loop of [parse_pdbqt] over the lines of the file: final state and
    the lines left unread. *)
Definition parse_pdbqt_scan (lines : list string) (length : Z)
    : result ((list coord * Z) * list string) :=
  for_each (parse_pdbqt_body length) lines ([], 0).

(** [parse_pdbqt(pdbqt_path, length)], on the lines of the file. *)
Definition parse_pdbqt (lines : list string) (length : Z)
    : result (list coord) :=
  r ← parse_pdbqt_scan lines length;
  mret r.1.1.

(** [parse_real_pdb(pdb_path, chain_id, start_res, end_res)], on the
    structure the parser returns for the file. *)
Definition parse_real_pdb (structure : Structure Atom) (chain_id : string)
    (start_res end_res : Z) : result (list coord) :=
  for_in (fun model coords =>
    for_in (fun chain coords =>
      if String.eqb (BioPDB.chain_id chain) chain_id then
        for_in (fun residue coords =>
          let res_id := resseq residue in
          if (start_res <=? res_id) && (res_id <=? end_res) then
            if residue_contains "CA" residue then
              atom ← residue_getitem residue "CA";
              mret (coords ++ [atom_coord atom])
            else mret coords
          else mret coords)
          (residues chain) coords
      else mret coords)
      (chains model) coords)
    (models structure) [].

Context `{!Superimposer}.

(** [DummyAtom(coord)] *)
Definition DummyAtom (c : coord) : M loc := new c.

(** [compute_rmsd(ref_atoms, alt_atoms)] *)
Definition compute_rmsd (ref_atoms alt_atoms : list coord)
    : M (option float) :=
  if bool_decide (length ref_atoms ≠ length alt_atoms)
     || bool_decide (length ref_atoms = 0%nat)
  then mret None
  else
    dummy_ref ← mapM DummyAtom ref_atoms;
    dummy_alt ← mapM DummyAtom alt_atoms;
    sup ← set_atoms dummy_ref dummy_alt;
    mret (Some sup.1).

Context `{!PyInt} `{!PyFormat} `{!FileSystem}.

(** The line [main] writes for one protein, one constructor per
    [outf.write] of the loop. *)
Inductive report :=
  | NotInIndex
  | InvalidRange (start_res end_res : Z)
  | PredictedNotFound (pred_path : string)
  | RealNotFound (real_pdb : string)
  | CountMismatch (n_pred n_real : nat)
  | CannotCompute
  | Rmsd (rmsd_val : float).

(** The text of the line. *)
Definition render (pdb_id : string) (r : report) : string :=
  match r with
  | NotInIndex => pdb_id +:+ TAB +:+ "N/A  (not in benchmark index)" +:+ NL
  | InvalidRange start_res end_res =>
      pdb_id +:+ TAB +:+ "N/A  (invalid residue range " +:+ str_of_Z start_res
      +:+ "-" +:+ str_of_Z end_res +:+ ")" +:+ NL
  | PredictedNotFound pred_path =>
      pdb_id +:+ TAB +:+ "N/A  (predicted file not found: " +:+ pred_path
      +:+ ")" +:+ NL
  | RealNotFound real_pdb =>
      pdb_id +:+ TAB +:+ "N/A  (real PDB not found: " +:+ real_pdb +:+ ")" +:+ NL
  | CountMismatch n_pred n_real =>
      pdb_id +:+ TAB +:+ "N/A  (atom count mismatch: pred=" +:+ str_of_nat n_pred
      +:+ ", real=" +:+ str_of_nat n_real +:+ ")" +:+ NL
  | CannotCompute => pdb_id +:+ TAB +:+ "N/A  (cannot compute RMSD)" +:+ NL
  | Rmsd rmsd_val => pdb_id +:+ TAB +:+ format_3f rmsd_val +:+ NL
  end.

(** The line printed for a protein, if any. *)
Definition echo (pdb_id : string) (r : report) : option string :=
  match r with
  | Rmsd rmsd_val => Some (pdb_id +:+ " => RMSD=" +:+ format_3f rmsd_val)
  | _ => None
  end.

(** One iteration of the loop of [main]. *)
Definition main_body (index_dict : dict (string * Z * Z))
    (pdb_id top_name : string) : M report :=
  if negb (dict_contains pdb_id index_dict) then mret NotInIndex
  else
    '(chain_id, start_res, end_res) ← lift (dict_getitem index_dict pdb_id);
    let seg_length := end_res - start_res + 1 in
    if seg_length <=? 0 then mret (InvalidRange start_res end_res)
    else
      let pred_folder := path_join PREDICTED_DIR pdb_id in
      let pred_filename := pdb_id +:+ "_" +:+ top_name +:+ ".pdbqt" in
      let pred_path := path_join pred_folder pred_filename in
      if negb (isfile pred_path) then mret (PredictedNotFound pred_path)
      else
        let real_folder := path_join REAL_STRUCT_DIR pdb_id in
        let real_pdb := path_join real_folder (pdb_id +:+ "_protein.pdb") in
        if negb (isfile real_pdb) then mret (RealNotFound real_pdb)
        else
          pred_coords ← lift (parse_pdbqt (readlines pred_path) seg_length);
          real_coords ← lift (parse_real_pdb (get_structure real_pdb)
                                chain_id start_res end_res);
          if bool_decide (length pred_coords ≠ length real_coords)
             || bool_decide (length pred_coords = 0%nat)
          then mret (CountMismatch (length pred_coords) (length real_coords))
          else
            rmsd_val ← compute_rmsd pred_coords real_coords;
            match rmsd_val with
            | None => mret CannotCompute
            | Some rmsd_val => mret (Rmsd rmsd_val)
            end.

(** [main()]: the reports in the order of the top list, then what is
    written and printed. *)
Definition main_reports : M (list (string * report)) :=
  top_dict ← lift (parse_top_list (readlines TOP_LIST_FILE));
  index_dict ← lift (parse_index_file (readlines INDEX_FILE));
  mapM (fun item : string * string =>
          r ← main_body index_dict item.1 item.2; mret (item.1, r))
       top_dict.

Definition main : M output :=
  reports ← main_reports;
  mret {| written :=
            ("# RMSD fig (predicted vs real) in format: pdb_id <tab> RMSD_value"
             +:+ NL +:+ NL)
            :: ((fun p => render p.1 p.2) <$> reports);
          printed :=
            omap (fun p => echo p.1 p.2) reports
            ++ [NL +:+ "All done! RMSD fig saved in " +:+ OUTPUT_RMSD_FILE] |}.
End RMSD_Q.
End RMSD_Q.

(** ** Affinity_RMSD_caculate/RMSD_af.py *)

Module RMSD_af.
Section RMSD_af.
Context `{PyFloat}.

Definition INDEX_FILE : string := "benchmark_index.txt".
Definition AF2_PDBQT_DIR : string := "pdbqt/af2_pdbqt".
Definition REAL_STRUCT_DIR : string := "selected".
Definition OUTPUT_RMSD_FILE : string :=
  "../Dataset_info/plt/with_af2/result_summary/af2_rmsd_summary.txt".

Definition residue_pat_match (s : string) : option (string * string) :=
  rest ← after_prefix_nocase "residues" s;
  let '(spaces, rest) := span isspace rest in
  if String.eqb spaces "" then None
  else
    let '(group1, rest) := span isdigit rest in
    if String.eqb group1 "" then None
    else
      match rest with
      | String "-" rest =>
          let '(group2, _) := span isdigit rest in
          if String.eqb group2 "" then None else Some (group1, group2)
      | _ => None
      end.

Fixpoint residue_pat_search (s : string) : option (string * string) :=
  match residue_pat_match s with
  | Some groups => Some groups
  | None =>
      match s with
      | EmptyString => None
      | String _ s' => residue_pat_search s'
      end
  end.

(** [parse_index_file(index_path)] *)
Definition parse_index_file `{PyInt} (lines : list string)
    : result (dict (string * Z * Z)) :=
  for_in (fun line index_dict =>
    let line_s := strip line in
    if String.eqb line_s "" then mret index_dict
    else if startswith line_s "[" || startswith line_s "length_"
    then mret index_dict
    else
      let parts := split line_s in
      if (length parts <? 5)%nat then mret index_dict
      else
        pdb_id ← getitem parts 0;
        chain_id ← getitem parts 2;
        match residue_pat_search line_s with
        | Some (group1, group2) =>
            start_res ← int_of_digits group1;
            end_res ← int_of_digits group2;
            mret (dict_setitem pdb_id (chain_id, start_res, end_res)
                               index_dict)
        | None => mret index_dict
        end)
    lines [].

Definition read_xyz (parts : list string) : result coord :=
  x ← getitem parts 6 ≫= py_float;
  y ← getitem parts 7 ≫= py_float;
  z ← getitem parts 8 ≫= py_float;
  mret (x, y, z).

Definition parse_pdbqt_body (length : Z) (line : string)
    (st : list coord * Z) : result (flow * (list coord * Z)) :=
  let line_s := strip line in
  if negb (startswith line_s "ATOM") then mret (Next, st)
  else if negb (contains " CA " line_s) then mret (Next, st)
  else
    let parts := split line_s in
    r ← try_except (Some <$> read_xyz parts) index_or_value_error (mret None);
    match r with
    | None => mret (Next, st)
    | Some xyz =>
        let coords := st.1 ++ [xyz] in
        let current_ca_count := st.2 + 1 in
        if length <=? current_ca_count
        then mret (Break, (coords, current_ca_count))
        else mret (Next, (coords, current_ca_count))
    end.

Definition parse_pdbqt_scan (lines : list string) (length : Z)
    : result ((list coord * Z) * list string) :=
  for_each (parse_pdbqt_body length) lines ([], 0).

(** [parse_pdbqt(pdbqt_path, length)] *)
Definition parse_pdbqt (lines : list string) (length : Z)
    : result (list coord) :=
  r ← parse_pdbqt_scan lines length;
  mret r.1.1.

(** [parse_real_pdb(pdb_path, chain_id, start_res, end_res)] *)
Definition parse_real_pdb (structure : Structure Atom) (chain_id : string)
    (start_res end_res : Z) : result (list coord) :=
  for_in (fun model coords =>
    for_in (fun chain coords =>
      if String.eqb (BioPDB.chain_id chain) chain_id then
        for_in (fun residue coords =>
          let res_id := resseq residue in
          if (start_res <=? res_id) && (res_id <=? end_res) then
            if residue_contains "CA" residue then
              atom ← residue_getitem residue "CA";
              mret (coords ++ [atom_coord atom])
            else mret coords
          else mret coords)
          (residues chain) coords
      else mret coords)
      (chains model) coords)
    (models structure) [].

Context `{!Superimposer}.

Definition DummyAtom (c : coord) : M loc := new c.

(** [compute_rmsd(ref_coords, alt_coords)] *)
Definition compute_rmsd (ref_coords alt_coords : list coord)
    : M (option float) :=
  if bool_decide (length ref_coords ≠ length alt_coords)
     || bool_decide (length ref_coords = 0%nat)
  then mret None
  else
    dummy_ref ← mapM DummyAtom ref_coords;
    dummy_alt ← mapM DummyAtom alt_coords;
    sup ← set_atoms dummy_ref dummy_alt;
    mret (Some sup.1).

Context `{!PyInt} `{!PyFormat} `{!FileSystem}.

Inductive report :=
  | InvalidRange
  | PredictedNotFound (pred_file : string)
  | RealNotFound (real_file : string)
  | CountMismatch (n_pred n_real : nat)
  | CannotCompute
  | Rmsd (rmsd_val : float).

Definition render (pdb_id : string) (r : report) : string :=
  match r with
  | InvalidRange => pdb_id +:+ TAB +:+ "N/A (invalid residue range)" +:+ NL
  | PredictedNotFound pred_file =>
      pdb_id +:+ TAB +:+ "N/A (predicted file not found: " +:+ pred_file
      +:+ ")" +:+ NL
  | RealNotFound real_file =>
      pdb_id +:+ TAB +:+ "N/A (real file not found: " +:+ real_file +:+ ")" +:+ NL
  | CountMismatch n_pred n_real =>
      pdb_id +:+ TAB +:+ "N/A (atom count mismatch: pred=" +:+ str_of_nat n_pred
      +:+ ", real=" +:+ str_of_nat n_real +:+ ")" +:+ NL
  | CannotCompute => pdb_id +:+ TAB +:+ "N/A (cannot compute RMSD)" +:+ NL
  | Rmsd rmsd_val => pdb_id +:+ TAB +:+ format_3f rmsd_val +:+ NL
  end.

Definition echo (pdb_id : string) (r : report) : option string :=
  match r with
  | Rmsd rmsd_val => Some (pdb_id +:+ " => RMSD=" +:+ format_3f rmsd_val)
  | _ => None
  end.

(** One iteration of the loop of [main]. *)
Definition main_body (pdb_id chain_id : string) (start_res end_res : Z)
    : M report :=
  let seg_length := end_res - start_res + 1 in
  if seg_length <=? 0 then mret InvalidRange
  else
    let pred_folder := path_join AF2_PDBQT_DIR pdb_id in
    let pred_file := path_join pred_folder (pdb_id +:+ ".pdbqt") in
    if negb (isfile pred_file) then mret (PredictedNotFound pred_file)
    else
      let real_folder := path_join REAL_STRUCT_DIR pdb_id in
      let real_file := path_join real_folder (pdb_id +:+ "_protein.pdb") in
      if negb (isfile real_file) then mret (RealNotFound real_file)
      else
        pred_coords ← lift (parse_pdbqt (readlines pred_file) seg_length);
        real_coords ← lift (parse_real_pdb (get_structure real_file)
                              chain_id start_res end_res);
        if bool_decide (length pred_coords ≠ length real_coords)
           || bool_decide (length pred_coords = 0%nat)
        then mret (CountMismatch (length pred_coords) (length real_coords))
        else
          rmsd_val ← compute_rmsd real_coords pred_coords;
          match rmsd_val with
          | None => mret CannotCompute
          | Some rmsd_val => mret (Rmsd rmsd_val)
          end.

Definition main_reports : M (list (string * report)) :=
  index_dict ← lift (parse_index_file (readlines INDEX_FILE));
  mapM (fun item : string * (string * Z * Z) =>
          r ← main_body item.1 item.2.1.1 item.2.1.2 item.2.2;
          mret (item.1, r))
       index_dict.

(** [main()] *)
Definition main : M output :=
  reports ← main_reports;
  mret {| written :=
            ("# RMSD fig between AF2 .pdbqt and real structures" +:+ NL +:+ NL)
            :: ((fun p => render p.1 p.2) <$> reports);
          printed :=
            omap (fun p => echo p.1 p.2) reports
            ++ [NL +:+ "All done! Results saved in " +:+ OUTPUT_RMSD_FILE] |}.
End RMSD_af.
End RMSD_af.

(** ** Dataset_info/vis_protein_rmsd/vis_rmde.py *)

Module vis_rmde.

Definition CHAIN_ID : string := "A".
Definition REF_START_RES : Z := 214.
Definition REF_END_RES : Z := 224.
Definition PRED_START : Z := 1.
Definition PRED_END : Z := REF_END_RES - REF_START_RES + 1.

(** [class ResidueSelect(Select)]: the selection handed to [PDBIO.save].
    [__init__] stores its three arguments; [accept_residue] returns the
    integers 1 and 0. *)
Record ResidueSelect := {
  chain_id : string;
  start_res : Z;
  end_res : Z;
}.

Definition accept_residue {A} (self : ResidueSelect) (residue : Residue A)
    : Z :=
  let resnum := resseq residue in
  if (start_res self <=? resnum) && (resnum <=? end_res self) then 1
  else 0.

(** [extract_ca_atoms(structure, chain_id, start_res, end_res)]; the atoms
    themselves are returned, whatever their representation. *)
Definition extract_ca_atoms {A} (structure : Structure A) (chain_id : string)
    (start_res end_res : Z) : result (list A) :=
  model ← structure_getitem structure 0;
  chain ← model_getitem model chain_id;
  for_in (fun residue ca_atoms =>
    let resnum := resseq residue in
    if (start_res <=? resnum) && (resnum <=? end_res) then
      if residue_contains "CA" residue then
        atom ← residue_getitem residue "CA";
        mret (ca_atoms ++ [atom])
      else mret ca_atoms
    else mret ca_atoms)
    (residues chain) [].

(** What [main] reports for the alignment. *)
Inductive outcome {F : Type} :=
  | NoRefCA
  | NoPredCA
  | Mismatch (n_ref n_pred : nat)
  | Aligned (rms : F).
Arguments outcome : clear implicits.

Section main.
Context `{PyFloat} `{!Superimposer}.

(** The alignment of [main], from the two parsed structures up to
    [sup.apply(pred_structure.get_atoms())].  The atoms of the two
    structures are objects of the store. *)
Definition main (ref_structure pred_structure : Structure loc)
    : M (outcome float) :=
  ref_ca_atoms ← lift (extract_ca_atoms ref_structure CHAIN_ID
                         REF_START_RES REF_END_RES);
  if bool_decide (ref_ca_atoms = []) then mret NoRefCA else
  pred_ca_atoms ← lift (extract_ca_atoms pred_structure CHAIN_ID
                          PRED_START PRED_END);
  if bool_decide (pred_ca_atoms = []) then mret NoPredCA else
  if bool_decide (length ref_ca_atoms ≠ length pred_ca_atoms)
  then mret (Mismatch (length ref_ca_atoms) (length pred_ca_atoms))
  else
    sup ← set_atoms ref_ca_atoms pred_ca_atoms;
    _ ← apply sup.2 (get_atoms pred_structure);
    mret (Aligned sup.1).
End main.

End vis_rmde.

(** ** Reference descriptions used in the statements *)

Section Reference.
Context `{PyFloat}.

(** The coordinates a line of a pdbqt file contributes, if any: the line
    is an [ATOM] record, mentions [ CA ] and carries three numbers in
    fields 6 to 8. *)
Definition ca_entry (line : string) : option coord :=
  let line_s := strip line in
  if startswith line_s "ATOM" && contains " CA " line_s then
    match RMSD_Q.read_xyz (split line_s) with
    | Ok xyz => Some xyz
    | Raise _ => None
    end
  else None.

Definition ca_entries (lines : list string) : list coord :=
  omap ca_entry lines.

(** An [ATOM] line with the [ CA ] marker whose fields 6 to 8 are not
    three numbers: too few fields, or text that [float] rejects. *)
Definition malformed_ca_line (line : string) : Prop :=
  let line_s := strip line in
  startswith line_s "ATOM" = true ∧
  contains " CA " line_s = true ∧
  ((length (split line_s) < 9)%nat ∨
   ∃ i p, (6 ≤ i ≤ 8)%nat ∧ split line_s !! i = Some p ∧
          float_of_string p = None).
End Reference.

(** The alpha carbons of the residues of a chain whose sequence number lies
    in the inclusive window, in chain order; residues without an alpha
    carbon contribute nothing. *)
Definition window_ca {A} (chain : Chain A) (start_res end_res : Z) : list A :=
  omap (fun residue => atom_named "CA" (atoms residue))
       (filter (fun residue => start_res ≤ resseq residue ≤ end_res)
               (residues chain)).

(** The chains of a model that carry a given id. *)
Definition chains_named {A} (id : string) (model : Model A) : list (Chain A) :=
  filter (fun c => chain_id c = id) (chains model).

(** What the windowed extraction of a whole structure ranges over: every
    model, every chain of that id, the window of that chain. *)
Definition structure_window_ca {A} (structure : Structure A) (id : string)
    (start_res end_res : Z) : list A :=
  models structure ≫= fun model =>
  chains_named id model ≫= fun chain =>
  window_ca chain start_res end_res.

(** The [(pdb_id, top_name)] pair a line of the top list contributes, if
    any. *)
Definition top_entry (line : string) : option (string * string) :=
  let line_s := strip line in
  if String.eqb line_s "" || startswith line_s "#" then None
  else
    match split line_s with
    | pdb_id :: top_name :: _ => Some (pdb_id, top_name)
    | _ => None
    end.

(** The pdb id, the chain id and the two digit groups a line of the
    benchmark index contributes, if any. *)
Definition index_entry (line : string)
    : option (string * string * (string * string)) :=
  let line_s := strip line in
  if String.eqb line_s "" then None
  else if startswith line_s "[" || startswith line_s "length_" then None
  else
    match split line_s with
    | pdb_id :: _ :: chain_id :: _ :: _ :: _ =>
        groups ← RMSD_Q.residue_pat_search line_s;
        Some (pdb_id, chain_id, groups)
    | _ => None
    end.

(** The items of a [dict], older to newer, after a sequence of
    assignments. *)
Definition dict_of_items {V} (items : list (string * V)) : dict V :=
  fold_left (fun d item => dict_setitem item.1 item.2 d) items [].

(** The item a line of the benchmark index contributes once its digit
    groups are converted. *)
Definition index_item (line : string) : option (string * (string * Z * Z)) :=
  '(pdb_id, chain_id, (group1, group2)) ← index_entry line;
  Some (pdb_id, (chain_id, digits_value 0 group1, digits_value 0 group2)).

(** A line is within the interpreter's limit on the digits of an integer
    when the limit is off or the line is no longer than it. *)
Definition within_int_limit `{PyInt} (line : string) : Prop :=
  int_max_str_digits = 0%nat ∨ (String.length line ≤ int_max_str_digits)%nat.

(** A field of a line: a non-empty string without white space. *)
Fixpoint nonspace (s : string) : bool :=
  match s with
  | EmptyString => true
  | String a s' => negb (isspace a) && nonspace s'
  end.

Definition token (s : string) : Prop := s ≠ EmptyString ∧ nonspace s = true.


(** ** Instances for worked examples *)

(** Decimal numerals [[+-]digits[.digits]] read as exact rationals: the
    fragment of the grammar of [float(...)] that coordinate columns use. *)
Module Dec.

Definition digit (a : ascii) : option N :=
  let n := N_of_ascii a in
  if ((48 <=? n) && (n <=? 57))%N then Some (n - 48)%N else None.

(** [mant] is the numeral read so far without its point, [scale] the number
    of digits after the point, [ndig] the number of digits seen. *)
Fixpoint digits (s : string) (seen_dot : bool) (ndig : nat) (mant : N)
    (scale : nat) : option (N * nat) :=
  match s with
  | EmptyString => if ndig is O then None else Some (mant, scale)
  | String a s' =>
      if Ascii.eqb a "." then
        if seen_dot then None else digits s' true ndig mant scale
      else
        match digit a with
        | Some d =>
            digits s' seen_dot (S ndig) (10 * mant + d)%N
                   (if seen_dot then S scale else scale)
        | None => None
        end
  end.

Definition unsigned (s : string) : option Q :=
  '(mant, scale) ← digits s false 0 0%N 0;
  Some (Qred (Z.of_N mant # Z.to_pos (10 ^ Z.of_nat scale))).

Definition of_string (s : string) : option Q :=
  match s with
  | String "-" s' => Qopp <$> unsigned s'
  | String "+" s' => unsigned s'
  | _ => unsigned s
  end.

#[export] Instance dec_float : PyFloat := {|
  float := Q;
  float_of_string := of_string;
|}.

Definition vadd (a b : @coord dec_float) : @coord dec_float :=
  (Qred (a.1.1 + b.1.1), Qred (a.1.2 + b.1.2), Qred (a.2 + b.2))%Q.
Definition vsub (a b : @coord dec_float) : @coord dec_float :=
  (Qred (a.1.1 - b.1.1), Qred (a.1.2 - b.1.2), Qred (a.2 - b.2))%Q.

(** The superimposer on lists of one point: the centred coordinates
    vanish, the rotation is the identity, the translation carries the
    moving point onto the fixed one and the RMSD is 0.  A
    rotation/translation is represented by its translation; lists of
    another length do not occur in the examples. *)
#[export] Instance one_point : @Superimposer dec_float := {|
  rotran := @coord dec_float;
  superimpose fixed moving :=
    match fixed, moving with
    | [f], [m] => (0%Q, vsub f m)
    | _, _ => (0%Q, (0%Q, 0%Q, 0%Q))
    end;
  transform t c := vadd c t;
|}.

End Dec.

(** ** Data for worked examples *)

Module Ex.
Import Dec.

(** A predicted fragment in pdbqt format: three alpha carbons among other
    records. *)
Definition pdbqt_lines : list string :=
  [ "REMARK  predicted fragment";
    "ATOM      1  N   ASP A   0      -1.000   0.500   2.000  1.00  0.00    -0.066 N";
    "ATOM      2  CA  ASP A   0       1.000   2.000   3.000  1.00  0.00     0.177 C";
    "ATOM      3  C   ASP A   0       1.500   2.500   3.500  1.00  0.00     0.241 C";
    "ATOM      4  CA  GLY A   1       4.500   5.000   6.000  1.00  0.00     0.177 C";
    "ATOM      5  CA  PRO A   2       7.000   8.000   9.250  1.00  0.00     0.177 C" ].

(** Alpha-carbon records that are cut short, or carry text in a coordinate
    column. *)
Definition short_line : string :=
  "ATOM      6  CA  HIS A   3       1.000   2.000".
Definition text_line : string :=
  "ATOM      6  CA  HIS A   3       1.000   *****   3.000  1.00  0.00".

Definition one_ca_line : list string :=
  [ "ATOM      2  CA  ASP A   0       1.000   2.000   3.000  1.00  0.00     0.177 C" ].

Definition at_ (x y z : Z) : Atom := {| atom_coord := (inject_Z x, inject_Z y, inject_Z z) |}.

(** A residue with backbone atoms, with or without its alpha carbon. *)
Definition residue {A} (n : Z) (ic : string) (n_atom : A) (ca : option A)
    : Residue A :=
  {| hetfield := " "; resseq := n; icode := ic;
     atoms := ("N", n_atom) :: match ca with
                               | Some a => [("CA", a)]
                               | None => []
                               end |}.

(** Residues 10 to 20 of chain A; residues 15 and 16 lack the alpha
    carbon. *)
Definition chain_10_20 : Chain Atom :=
  {| chain_id := "A";
     residues :=
       (fun n => residue n " " (at_ n 0 0)
                   (if bool_decide (n = 15 ∨ n = 16) then None
                    else Some (at_ n 1 0)))
       <$> seqZ 10 11 |}.

Definition model_10_20 : Model Atom :=
  {| model_id := 0;
     chains := [ {| chain_id := "B"; residues := [residue 12 " " (at_ 0 0 0) (Some (at_ 9 9 9))] |};
                 chain_10_20 ] |}.

Definition structure_10_20 : Structure Atom := {| models := [model_10_20] |}.

(** Two residues numbered 52, told apart by the insertion code only. *)
Definition chain_52 : Chain Atom :=
  {| chain_id := "A";
     residues := [ residue 52 " " (at_ 0 0 0) (Some (at_ 1 0 0));
                   residue 52 "A" (at_ 3 0 0) (Some (at_ 4 0 0)) ] |}.

Definition structure_52 : Structure Atom :=
  {| models := [ {| model_id := 0; chains := [chain_52] |} ] |}.

(** A structure with two models of the same one-residue chain. *)
Definition nmr_model (id : Z) (x : Z) : Model Atom :=
  {| model_id := id;
     chains := [ {| chain_id := "A";
                    residues := [residue 1 " " (at_ x 0 0) (Some (at_ x 1 0))] |} ] |}.

Definition two_models : Structure Atom :=
  {| models := [nmr_model 0 0; nmr_model 1 5] |}.
Definition first_model_only : Structure Atom :=
  {| models := [nmr_model 0 0] |}.

(** Coordinate lists of lengths 6 and 5. *)
Definition six_points : list coord :=
  (fun n => (inject_Z n, 0%Q, 0%Q)) <$> seqZ 0 6.
Definition five_points : list coord :=
  (fun n => (inject_Z n, 1%Q, 0%Q)) <$> seqZ 0 5.

(** A reference and a predicted structure whose atoms are objects 0 to 3
    of a store: one residue each, inside the windows of [vis_rmde]. *)
Definition ref_structure : Structure loc :=
  {| models := [ {| model_id := 0;
                    chains := [ {| chain_id := "A";
                                   residues := [residue 214 " " 0%nat (Some 1%nat)] |} ] |} ] |}.
Definition pred_structure : Structure loc :=
  {| models := [ {| model_id := 0;
                    chains := [ {| chain_id := "A";
                                   residues := [residue 1 " " 2%nat (Some 3%nat)] |} ] |} ] |}.

Definition store_before : gmap loc coord :=
  {[ 0%nat := (0, 1, 0)%Q; 1%nat := (0, 0, 0)%Q;
     2%nat := (1, 1, 0)%Q; 3%nat := (1, 0, 0)%Q ]}.
Definition store_after : gmap loc coord :=
  {[ 0%nat := (0, 1, 0)%Q; 1%nat := (0, 0, 0)%Q;
     2%nat := (0, 1, 0)%Q; 3%nat := (0, 0, 0)%Q ]}.

End Ex.

(** ** An environment for worked examples of the drivers *)

Module ExBatch.
Import Dec.

(** The default limit of recent interpreters. *)
#[export] Instance int_limit : PyInt := {| int_max_str_digits := 4300 |}.

(** [{x:.3f}] on a non-negative multiple of 1/1000. *)
Definition fixed3 (x : Q) : string :=
  let n := Qfloor (x * 1000) in
  let frac := str_of_Z (n mod 1000) in
  str_of_Z (n / 1000) +:+ "."
  +:+ (if n mod 1000 <? 10 then "00" else if n mod 1000 <? 100 then "0" else "")
  +:+ frac.

#[export] Instance format : PyFormat := {| format_3f := fixed3 |}.

Definition top_lines : list string :=
  [ "# selected tops"; ""; "1e2k  top_1"; "9zzz  top_2"; "1abc" ].

Definition index_lines : list string :=
  [ "[short]";
    "length_1";
    "1e2k    Chain A    Residues 1-1    length=1    D";
    "2xyz    Chain B    Residues 60-55    length=6    DGPHGM" ].

Definition pred_path_1e2k : string :=
  "pdbqt/protein_pdbqt/1e2k/1e2k_top_1.pdbqt".
Definition af_path_1e2k : string := "pdbqt/af2_pdbqt/1e2k/1e2k.pdbqt".
Definition real_path_1e2k : string := "selected/1e2k/1e2k_protein.pdb".

(** The files: the two lists, one predicted fragment under each naming,
    and the real structure of 1e2k. *)
#[export] Instance files : FileSystem := {|
  isfile p :=
    bool_decide (p ∈ [RMSD_Q.TOP_LIST_FILE; RMSD_Q.INDEX_FILE;
                      pred_path_1e2k; af_path_1e2k; real_path_1e2k]);
  readlines p :=
    if String.eqb p RMSD_Q.TOP_LIST_FILE then top_lines
    else if String.eqb p RMSD_Q.INDEX_FILE then index_lines
    else if String.eqb p pred_path_1e2k || String.eqb p af_path_1e2k
    then Ex.one_ca_line
    else [];
  get_structure _ := Ex.first_model_only;
|}.

(** A line of the index whose first number has one digit more than the
    limit allows. *)
Definition long_number : string :=
  string_of_list_ascii (replicate 4301 "1"%char).
Definition long_line : string :=
  "1e2k Chain A Residues " +:+ long_number +:+ "-5 length=6 DGPHGM".

End ExBatch.

(** * Properties *)

(** ** The loops *)

Lemma for_each_skip {X S} (body : X → S → result (flow * S)) pre x post st :
  (∀ st', body x st' = Ok (Next, st')) →
  fst <$> for_each body (pre ++ x :: post) st
  = fst <$> for_each body (pre ++ post) st.
Proof.
  intros Hskip. revert st.
  induction pre as [|y pre IH]; intros st; simpl.
  - rewrite Hskip. reflexivity.
  - destruct (body y st) as [[[] st']|e]; simpl; [apply IH | done..].
Qed.

Lemma for_in_app {X S} (body : X → S → result S) xs ys st :
  for_in body (xs ++ ys) st = for_in body xs st ≫= for_in body ys.
Proof.
  revert st. induction xs as [|x xs IH]; intros st; simpl; [done|].
  destruct (body x st) as [st'|e]; simpl; [apply IH | done].
Qed.

(** ** [parse_pdbqt] *)

Section parse_pdbqt.
Context `{PyFloat}.

Lemma getitem_float_raises (parts : list string) i e :
  getitem parts i ≫= py_float = Raise e → index_or_value_error e = true.
Proof.
  unfold getitem, py_float.
  destruct (parts !! i) as [p|]; simpl.
  - destruct (float_of_string p); [done|]. by intros [= <-].
  - by intros [= <-].
Qed.

Lemma read_xyz_raises parts e :
  RMSD_Q.read_xyz parts = Raise e → index_or_value_error e = true.
Proof.
  unfold RMSD_Q.read_xyz.
  destruct (getitem parts 6 ≫= py_float) as [x|e6] eqn:E6; simpl;
    [|intros [= <-]; eauto using getitem_float_raises].
  destruct (getitem parts 7 ≫= py_float) as [y|e7] eqn:E7; simpl;
    [|intros [= <-]; eauto using getitem_float_raises].
  destruct (getitem parts 8 ≫= py_float) as [z|e8] eqn:E8; simpl;
    [done|intros [= <-]; eauto using getitem_float_raises].
Qed.

(** What one iteration does, by the entry the line contributes. *)
Lemma parse_pdbqt_body_entry N line cs k :
  RMSD_Q.parse_pdbqt_body N line (cs, k) =
  match ca_entry line with
  | None => Ok (Next, (cs, k))
  | Some xyz =>
      if N <=? k + 1 then Ok (Break, (cs ++ [xyz], k + 1))
      else Ok (Next, (cs ++ [xyz], k + 1))
  end.
Proof.
  unfold RMSD_Q.parse_pdbqt_body, ca_entry.
  destruct (startswith (strip line) "ATOM"); simpl; [|done].
  destruct (contains " CA " (strip line)); simpl; [|done].
  destruct (RMSD_Q.read_xyz (split (strip line))) as [xyz|e] eqn:E; simpl.
  - by destruct (N <=? k + 1).
  - by rewrite (read_xyz_raises _ _ E).
Qed.

(** The fields a line's coordinates are read from. *)
Lemma read_xyz_fields (parts parts' : list string) :
  parts !! 6%nat = parts' !! 6%nat →
  parts !! 7%nat = parts' !! 7%nat →
  parts !! 8%nat = parts' !! 8%nat →
  RMSD_Q.read_xyz parts = RMSD_Q.read_xyz parts'.
Proof.
  intros E6 E7 E8. unfold RMSD_Q.read_xyz, getitem.
  by rewrite E6, E7, E8.
Qed.

Lemma malformed_no_entry line : malformed_ca_line line → ca_entry line = None.
Proof.
  intros (Hatom & Hca & Hbad). unfold ca_entry. rewrite Hatom, Hca. simpl.
  destruct (RMSD_Q.read_xyz (split (strip line))) as [xyz|e] eqn:E; [|done].
  exfalso. revert E. unfold RMSD_Q.read_xyz, getitem, py_float.
  destruct Hbad as [Hshort|(i & p & Hi & Hp & Hnum)].
  - assert (split (strip line) !! 8%nat = None) as ->
      by (apply lookup_ge_None; lia).
    destruct (split (strip line) !! 6%nat) as [p6|]; simpl; [|done].
    destruct (float_of_string p6); simpl; [|done].
    destruct (split (strip line) !! 7%nat) as [p7|]; simpl; [|done].
    by destruct (float_of_string p7).
  - assert (i = 6 ∨ i = 7 ∨ i = 8)%nat as [->|[->| ->]] by lia;
      rewrite Hp; simpl; rewrite Hnum; simpl.
    + done.
    + destruct (split (strip line) !! 6%nat) as [p6|]; simpl; [|done].
      by destruct (float_of_string p6).
    + destruct (split (strip line) !! 6%nat) as [p6|]; simpl; [|done].
      destruct (float_of_string p6); simpl; [|done].
      destruct (split (strip line) !! 7%nat) as [p7|]; simpl; [|done].
      by destruct (float_of_string p7).
Qed.

(** The scan from a loop state below the limit. *)
Lemma parse_pdbqt_scan_from lines N cs k :
  k < N →
  let taken := take (Z.to_nat (N - k)) (ca_entries lines) in
  ∃ read unread,
    lines = read ++ unread ∧
    for_each (RMSD_Q.parse_pdbqt_body N) lines (cs, k)
    = Ok ((cs ++ taken, k + Z.of_nat (length taken)), unread) ∧
    ca_entries read = taken ∧
    (N - k ≤ Z.of_nat (length (ca_entries lines)) →
       ∃ read' last, read = read' ++ [last] ∧ is_Some (ca_entry last)) ∧
    (Z.of_nat (length (ca_entries lines)) < N - k → unread = []).
Proof.
  revert cs k. induction lines as [|line lines IH]; intros cs k Hk; simpl.
  - exists [], []. rewrite take_nil. simpl. rewrite app_nil_r, Z.add_0_r.
    split_and!; try done. lia.
  - rewrite parse_pdbqt_body_entry. unfold ca_entries in *. simpl.
    destruct (ca_entry line) as [xyz|] eqn:Hline; simpl.
    + replace (Z.to_nat (N - k)) with (S (Z.to_nat (N - (k + 1)))) by lia.
      simpl. destruct (N <=? k + 1) eqn:Hlim; simpl.
      * apply Z.leb_le in Hlim.
        replace (Z.to_nat (N - (k + 1))) with 0%nat by lia.
        rewrite take_0. exists [line], lines. simpl. rewrite Hline.
        split_and!; try done.
        -- intros _. exists [], line. by rewrite Hline.
        -- simpl. lia.
      * apply Z.leb_gt in Hlim.
        destruct (IH (cs ++ [xyz]) (k + 1)) as
          (read & unread & Hsplit & Hrun & Hread & Hstop & Hall); [lia|].
        exists (line :: read), unread. split_and!.
        -- simpl. by rewrite Hsplit.
        -- rewrite Hrun, <- app_assoc. simpl. do 3 f_equal. lia.
        -- simpl. rewrite Hline. simpl. f_equal. exact Hread.
        -- intros Hn. destruct Hstop as (read' & last & -> & Hlast).
           { simpl in Hn. lia. }
           by exists (line :: read'), last.
        -- intros Hn. apply Hall. simpl in Hn. lia.
    + destruct (IH cs k) as
        (read & unread & Hsplit & Hrun & Hread & Hstop & Hall); [lia|].
      exists (line :: read), unread. split_and!.
      * simpl. by rewrite Hsplit.
      * done.
      * simpl. rewrite Hline. exact Hread.
      * intros Hn. destruct (Hstop Hn) as (read' & last & -> & Hlast).
        by exists (line :: read'), last.
      * done.
Qed.

Lemma parse_pdbqt_af_scan lines N :
  RMSD_af.parse_pdbqt_scan lines N = RMSD_Q.parse_pdbqt_scan lines N.
Proof. reflexivity. Qed.

Lemma parse_pdbqt_af lines N :
  RMSD_af.parse_pdbqt lines N = RMSD_Q.parse_pdbqt lines N.
Proof. reflexivity. Qed.
End parse_pdbqt.

(** ** The object store and [compute_rmsd] *)

Section store.
Context `{PyFloat}.
Implicit Types h : gmap loc coord.

Lemma M_bind_ok {X Y} (m : M X) (f : X → M Y) h x h' :
  m h = Ok (x, h') → (m ≫= f) h = f x h'.
Proof. unfold mbind, M_bind. by intros ->. Qed.

(** Construction only extends the store. *)
Lemma new_fresh c h :
  ∃ l, new c h = Ok (l, <[l := c]> h) ∧ h !! l = None.
Proof.
  exists (fresh (dom h)). split; [done|].
  apply not_elem_of_dom, is_fresh.
Qed.

Lemma mapM_new cs h :
  ∃ ls h', mapM new cs h = Ok (ls, h') ∧ h ⊆ h' ∧
           Forall2 (fun l c => h' !! l = Some c) ls cs.
Proof.
  revert h. induction cs as [|c cs IH]; intros h; simpl.
  - by exists [], h.
  - destruct (new_fresh c h) as (l & Hnew & Hl).
    destruct (IH (<[l := c]> h)) as (ls & h' & Hrun & Hsub & Hls).
    exists (l :: ls), h'. split_and!.
    + rewrite (M_bind_ok _ _ _ _ _ Hnew), (M_bind_ok _ _ _ _ _ Hrun). done.
    + etrans; [by apply insert_subseteq|done].
    + constructor; [|done].
      eapply lookup_weaken; [apply lookup_insert_eq|done].
Qed.

Lemma mapM_get_coord ls cs h :
  Forall2 (fun l c => h !! l = Some c) ls cs →
  mapM get_coord ls h = Ok (cs, h).
Proof.
  induction 1 as [|l c ls cs Hl _ IH]; simpl; [done|].
  assert (get_coord l h = Ok (c, h)) as Hget
    by (unfold get_coord; by rewrite Hl).
  by rewrite (M_bind_ok _ _ _ _ _ Hget), (M_bind_ok _ _ _ _ _ IH).
Qed.

Context `{!Superimposer}.

Lemma set_atoms_ok fixed moving fcs mcs h :
  Forall2 (fun l c => h !! l = Some c) fixed fcs →
  Forall2 (fun l c => h !! l = Some c) moving mcs →
  length fixed = length moving →
  set_atoms fixed moving h = Ok (superimpose fcs mcs, h).
Proof.
  intros Hf Hm Hlen. unfold set_atoms. rewrite bool_decide_eq_true_2 by done.
  rewrite (M_bind_ok _ _ _ _ _ (mapM_get_coord _ _ _ Hf)).
  by rewrite (M_bind_ok _ _ _ _ _ (mapM_get_coord _ _ _ Hm)).
Qed.

Lemma compute_rmsd_guard (ref_atoms alt_atoms : list coord) h :
  length ref_atoms ≠ length alt_atoms ∨ ref_atoms = [] ∨ alt_atoms = [] →
  RMSD_Q.compute_rmsd ref_atoms alt_atoms h = Ok (None, h).
Proof.
  intros Hbad. unfold RMSD_Q.compute_rmsd.
  destruct (decide (length ref_atoms = length alt_atoms)) as [Hlen|Hlen].
  - rewrite (bool_decide_eq_true_2 (length ref_atoms = 0%nat)).
    { by rewrite orb_true_r. }
    destruct Hbad as [?|[->| ->]]; [done|done|]. by rewrite Hlen.
  - by rewrite bool_decide_eq_true_2.
Qed.

Lemma compute_rmsd_runs (ref_atoms alt_atoms : list coord) h :
  length ref_atoms = length alt_atoms → ref_atoms ≠ [] →
  ∃ h', RMSD_Q.compute_rmsd ref_atoms alt_atoms h
        = Ok (Some (superimpose ref_atoms alt_atoms).1, h') ∧ h ⊆ h'.
Proof.
  intros Hlen Hne. unfold RMSD_Q.compute_rmsd.
  rewrite bool_decide_eq_false_2 by congruence.
  rewrite bool_decide_eq_false_2 by (by destruct ref_atoms).
  simpl. unfold RMSD_Q.DummyAtom.
  destruct (mapM_new ref_atoms h) as (ls1 & h1 & Hrun1 & Hsub1 & Hls1).
  destruct (mapM_new alt_atoms h1) as (ls2 & h2 & Hrun2 & Hsub2 & Hls2).
  exists h2. split; [|by etrans].
  rewrite (M_bind_ok _ _ _ _ _ Hrun1), (M_bind_ok _ _ _ _ _ Hrun2).
  erewrite M_bind_ok; [done|].
  apply set_atoms_ok; [|done|].
  - eapply Forall2_impl; [exact Hls1|]. intros l c Hl. simpl in *.
    by eapply lookup_weaken.
  - apply Forall2_length in Hls1, Hls2. congruence.
Qed.

Lemma compute_rmsd_af (ref_coords alt_coords : list coord) h :
  RMSD_af.compute_rmsd ref_coords alt_coords h
  = RMSD_Q.compute_rmsd ref_coords alt_coords h.
Proof. reflexivity. Qed.
End store.

(** ** The windowed extractors *)

Lemma window_test (start_res end_res x : Z) :
  (start_res <=? x) && (x <=? end_res) = bool_decide (start_res ≤ x ≤ end_res).
Proof.
  destruct (decide (start_res ≤ x ≤ end_res)) as [Hin|Hout].
  - rewrite bool_decide_eq_true_2 by done.
    apply andb_true_intro. split; apply Z.leb_le; lia.
  - rewrite bool_decide_eq_false_2 by done.
    apply andb_false_iff.
    destruct (decide (start_res ≤ x)); [right|left]; apply Z.leb_gt; lia.
Qed.

Lemma length_omap_le {X Y} (f : X → option Y) (l : list X) :
  (length (omap f l) ≤ length l)%nat.
Proof.
  induction l as [|x l IH]; csimpl; [done|].
  destruct (f x); simpl; lia.
Qed.

Lemma length_omap_lt {X Y} (f : X → option Y) (l : list X) x :
  x ∈ l → f x = None → (length (omap f l) < length l)%nat.
Proof.
  intros Hx Hfx. induction Hx as [x l|x y l Hx IH]; csimpl.
  - rewrite Hfx. pose proof (length_omap_le f l). lia.
  - specialize (IH Hfx). destruct (f y); simpl; lia.
Qed.

(** Pairwise distinct integers of a window are no more than the window
    holds. *)
Lemma length_window_le (l : list Z) (lo hi : Z) :
  NoDup l → Forall (fun x => lo ≤ x ≤ hi) l → lo ≤ hi →
  Z.of_nat (length l) ≤ hi - lo + 1.
Proof.
  intros Hnd Hin Hle.
  assert (l ⊆+ seqZ lo (hi - lo + 1)) as Hsub.
  { apply NoDup_submseteq; [done|]. intros x Hx.
    rewrite Forall_forall in Hin. apply elem_of_seqZ.
    specialize (Hin x Hx). lia. }
  apply submseteq_length in Hsub. rewrite length_seqZ in Hsub. lia.
Qed.

Section extractors.
Context {A B : Type} (g : A → B).

(** The loop over the residues of one chain, with the atom recorded
    through [g]. *)
Lemma residues_loop (start_res end_res : Z) (rs : list (Residue A))
    (acc : list B) :
  for_in (fun residue acc =>
    if (start_res <=? resseq residue) && (resseq residue <=? end_res) then
      if residue_contains "CA" residue then
        atom ← residue_getitem residue "CA";
        mret (acc ++ [g atom])
      else mret acc
    else mret acc) rs acc
  = Ok (acc ++ (g <$> omap (fun residue => atom_named "CA" (atoms residue))
                 (filter (fun residue => start_res ≤ resseq residue ≤ end_res)
                         rs))).
Proof.
  revert acc. induction rs as [|r rs IH]; intros acc; simpl.
  - by rewrite app_nil_r.
  - rewrite window_test, filter_cons.
    destruct (decide (start_res ≤ resseq r ≤ end_res)) as [Hin|Hout].
    + rewrite bool_decide_eq_true_2 by done.
      unfold residue_contains, residue_getitem. simpl.
      destruct (atom_named "CA" (atoms r)) as [a|]; simpl.
      * rewrite IH, <- app_assoc. done.
      * apply IH.
    + rewrite bool_decide_eq_false_2 by done. simpl. apply IH.
Qed.
End extractors.

Section extract_ca_atoms.
Context {A : Type}.
Implicit Types (s : Structure A) (m : Model A) (c : Chain A).

Lemma extract_ca_atoms_chain s m c cid start_res end_res :
  structure_getitem s 0 = Ok m → model_getitem m cid = Ok c →
  vis_rmde.extract_ca_atoms s cid start_res end_res
  = Ok (window_ca c start_res end_res).
Proof.
  intros Hm Hc. unfold vis_rmde.extract_ca_atoms. rewrite Hm. simpl.
  rewrite Hc. simpl.
  rewrite (residues_loop id). simpl. by rewrite list_fmap_id.
Qed.

Lemma structure_getitem_elem s i m :
  structure_getitem s i = Ok m → m ∈ models s ∧ model_id m = i.
Proof.
  unfold structure_getitem.
  destruct (find _ _) as [m'|] eqn:Hfind; [|done]. intros [= ->].
  apply find_some in Hfind as [Hin Hid].
  split; [by apply list_elem_of_In|]. by apply Z.eqb_eq.
Qed.

Lemma model_getitem_elem m cid c :
  model_getitem m cid = Ok c → c ∈ chains m ∧ chain_id c = cid.
Proof.
  unfold model_getitem.
  destruct (find _ _) as [c'|] eqn:Hfind; [|done]. intros [= ->].
  apply find_some in Hfind as [Hin Hid].
  split; [by apply list_elem_of_In|]. by apply String.eqb_eq.
Qed.

Lemma model_getitem_missing m cid :
  (∀ c, c ∈ chains m → chain_id c ≠ cid) →
  model_getitem m cid = Raise (KeyError (KStr cid)).
Proof.
  intros Hno. unfold model_getitem.
  destruct (find _ _) as [c|] eqn:Hfind; [|done].
  apply find_some in Hfind as [Hin Hid].
  apply String.eqb_eq in Hid. apply list_elem_of_In in Hin.
  by destruct (Hno c Hin).
Qed.

Lemma atom_named_elem name (l : list (string * A)) a :
  atom_named name l = Some a → a ∈ l.*2.
Proof.
  induction l as [|[n b] l IH]; simpl; [done|].
  destruct (String.eqb n name).
  - intros [= ->]. left.
  - intros Ha. right. by apply IH.
Qed.

Lemma window_ca_atoms c start_res end_res :
  window_ca c start_res end_res ⊆ chain_get_atoms c.
Proof.
  intros a Ha. unfold window_ca in Ha.
  apply list_elem_of_omap in Ha as (r & Hr & Hname).
  apply list_elem_of_filter in Hr as [_ Hr].
  apply list_elem_of_bind. exists r. split; [|done].
  by eapply atom_named_elem.
Qed.

Lemma extract_ca_atoms_sub s cid start_res end_res l :
  vis_rmde.extract_ca_atoms s cid start_res end_res = Ok l →
  l ⊆ get_atoms s.
Proof.
  destruct (structure_getitem s 0) as [m|e] eqn:Hm;
    [|unfold vis_rmde.extract_ca_atoms; by rewrite Hm].
  destruct (model_getitem m cid) as [c|e] eqn:Hc;
    [|unfold vis_rmde.extract_ca_atoms; rewrite Hm; simpl; by rewrite Hc].
  rewrite (extract_ca_atoms_chain _ _ _ _ _ _ Hm Hc). intros [= <-] a Ha.
  apply structure_getitem_elem in Hm as [Hm _].
  apply model_getitem_elem in Hc as [Hc _].
  apply list_elem_of_bind. exists m. split; [|done].
  apply list_elem_of_bind. exists c. split; [|done].
  by eapply window_ca_atoms.
Qed.
End extract_ca_atoms.

Section parse_real_pdb.
Context `{PyFloat}.
Implicit Types (s : Structure Atom) (m : Model Atom) (c : Chain Atom).

Lemma chains_loop cid start_res end_res (cs : list (Chain Atom))
    (acc : list coord) :
  for_in (fun chain coords =>
    if String.eqb (chain_id chain) cid then
      for_in (fun residue coords =>
        let res_id := resseq residue in
        if (start_res <=? res_id) && (res_id <=? end_res) then
          if residue_contains "CA" residue then
            atom ← residue_getitem residue "CA";
            mret (coords ++ [atom_coord atom])
          else mret coords
        else mret coords)
        (residues chain) coords
    else mret coords) cs acc
  = Ok (acc ++ (atom_coord <$>
                (filter (fun c => chain_id c = cid) cs ≫= fun c =>
                 window_ca c start_res end_res))).
Proof.
  revert acc. induction cs as [|c cs IH]; intros acc; simpl.
  - by rewrite app_nil_r.
  - rewrite filter_cons. destruct (String.eqb_spec (chain_id c) cid) as [Hid|Hid].
    + rewrite decide_True by done.
      rewrite bind_cons, fmap_app, app_assoc.
      rewrite (residues_loop atom_coord). simpl. by rewrite IH.
    + rewrite decide_False by done. apply IH.
Qed.

Lemma parse_real_pdb_structure s cid start_res end_res :
  RMSD_Q.parse_real_pdb s cid start_res end_res
  = Ok (atom_coord <$> structure_window_ca s cid start_res end_res).
Proof.
  unfold RMSD_Q.parse_real_pdb, structure_window_ca.
  generalize (models s) as ms. intros ms.
  change (@nil coord) with
    (@nil coord ++ []) at 2. rewrite app_nil_r.
  assert (∀ acc,
    for_in (fun model coords =>
      for_in (fun chain coords =>
        if String.eqb (chain_id chain) cid then
          for_in (fun residue coords =>
            let res_id := resseq residue in
            if (start_res <=? res_id) && (res_id <=? end_res) then
              if residue_contains "CA" residue then
                atom ← residue_getitem residue "CA";
                mret (coords ++ [atom_coord atom])
              else mret coords
            else mret coords)
            (residues chain) coords
        else mret coords)
        (chains model) coords) ms acc
    = Ok (acc ++ (atom_coord <$>
                  (ms ≫= fun model => chains_named cid model ≫= fun chain =>
                   window_ca chain start_res end_res)))) as Hloop.
  { induction ms as [|m ms IH]; intros acc.
    - simpl. by rewrite app_nil_r.
    - rewrite bind_cons, fmap_app, app_assoc. simpl.
      rewrite chains_loop. simpl. by rewrite IH. }
  apply (Hloop []).
Qed.

Lemma parse_real_pdb_af s cid start_res end_res :
  RMSD_af.parse_real_pdb s cid start_res end_res
  = RMSD_Q.parse_real_pdb s cid start_res end_res.
Proof. reflexivity. Qed.
End parse_real_pdb.

Lemma structure_window_ca_single {A} (s : Structure A) (m : Model A)
    (c : Chain A) cid start_res end_res :
  models s = [m] → chains_named cid m = [c] →
  structure_window_ca s cid start_res end_res = window_ca c start_res end_res.
Proof.
  intros Hm Hc. unfold structure_window_ca. rewrite Hm, bind_singleton, Hc.
  by rewrite bind_singleton.
Qed.



Section window_length.
Context {A : Type}.
Implicit Types c : Chain A.

Lemma window_residues_length c start_res end_res :
  NoDup (resseq <$> residues c) → start_res ≤ end_res →
  Z.of_nat (length (filter (fun r => start_res ≤ resseq r ≤ end_res)
                           (residues c)))
  ≤ end_res - start_res + 1.
Proof.
  intros Hnd Hle.
  rewrite <- (length_fmap resseq). apply length_window_le; [| |done].
  - eapply sublist_NoDup; [done|]. apply fmap_sublist, sublist_filter.
  - apply Forall_fmap, Forall_forall. intros r Hr.
    by apply list_elem_of_filter in Hr as [Hin _].
Qed.

Lemma window_ca_length c start_res end_res :
  NoDup (resseq <$> residues c) → start_res ≤ end_res →
  Z.of_nat (length (window_ca c start_res end_res)) ≤ end_res - start_res + 1.
Proof.
  intros Hnd Hle. unfold window_ca.
  pose proof (window_residues_length c _ _ Hnd Hle).
  pose proof (length_omap_le (fun r : Residue A => atom_named "CA" (atoms r))
                (filter (fun r => start_res ≤ resseq r ≤ end_res)
                        (residues c))).
  lia.
Qed.

Lemma window_ca_length_lt c start_res end_res r :
  NoDup (resseq <$> residues c) →
  r ∈ residues c → start_res ≤ resseq r ≤ end_res →
  atom_named "CA" (atoms r) = None →
  Z.of_nat (length (window_ca c start_res end_res)) < end_res - start_res + 1.
Proof.
  intros Hnd Hr Hin Hca. unfold window_ca.
  pose proof (window_residues_length c start_res end_res Hnd ltac:(lia)).
  pose proof (length_omap_lt (fun r : Residue A => atom_named "CA" (atoms r))
                (filter (fun r => start_res ≤ resseq r ≤ end_res)
                        (residues c)) r) as Hlt.
  rewrite list_elem_of_filter in Hlt. specialize (Hlt (conj Hin Hr) Hca).
  lia.
Qed.
End window_length.

(** ** [sup.apply] and the alignment of [vis_rmde.main] *)

Section alignment.
Context `{PyFloat} `{!Superimposer}.
Implicit Types h : gmap loc coord.

Lemma live_coords (ls : list loc) h :
  (∀ l, l ∈ ls → is_Some (h !! l)) →
  ∃ cs, Forall2 (fun l c => h !! l = Some c) ls cs.
Proof.
  induction ls as [|l ls IH]; intros Hlive.
  - by exists [].
  - destruct (Hlive l) as [c Hc]; [left|].
    destruct IH as [cs Hcs]; [intros; apply Hlive; by right|].
    exists (c :: cs). by constructor.
Qed.

(** [sup.apply] overwrites exactly the atoms it is given. *)
Lemma apply_store (rt : rotran) (atom_list : list loc) h :
  (∀ l, l ∈ atom_list → is_Some (h !! l)) → NoDup atom_list →
  ∃ h', apply rt atom_list h = Ok (tt, h') ∧
        ∀ l, h' !! l = if decide (l ∈ atom_list)
                       then transform rt <$> h !! l else h !! l.
Proof.
  revert h. induction atom_list as [|a rest IH]; intros h Hlive Hnd.
  - exists h. split; [done|]. intros l. by rewrite decide_False by apply not_elem_of_nil.
  - apply NoDup_cons in Hnd as [Ha Hnd].
    destruct (Hlive a) as [c Hc]; [left|].
    destruct (IH (<[a := transform rt c]> h)) as (h' & Hrun & Hh'); [|done|].
    { intros l Hl. apply lookup_insert_is_Some'. right. apply Hlive. by right. }
    exists h'. split.
    + simpl. unfold atom_transform.
      assert (get_coord a h = Ok (c, h)) as Hget
        by (unfold get_coord; by rewrite Hc).
      unfold mbind at 1, M_bind. unfold mbind at 1, M_bind.
      rewrite Hget. simpl. exact Hrun.
    + intros l. rewrite Hh'. destruct (decide (l = a)) as [->|Hne].
      * rewrite decide_False by done. rewrite decide_True by left.
        by rewrite lookup_insert_eq, Hc.
      * rewrite lookup_insert_ne by done.
        destruct (decide (l ∈ rest)) as [Hl|Hl].
        -- by rewrite decide_True by (by right).
        -- rewrite decide_False; [done|]. by intros [?|?]%elem_of_cons.
Qed.

Lemma main_aligns (ref_structure pred_structure : Structure loc)
    (ref_ca pred_ca : list loc) h :
  vis_rmde.extract_ca_atoms ref_structure vis_rmde.CHAIN_ID
    vis_rmde.REF_START_RES vis_rmde.REF_END_RES = Ok ref_ca →
  vis_rmde.extract_ca_atoms pred_structure vis_rmde.CHAIN_ID
    vis_rmde.PRED_START vis_rmde.PRED_END = Ok pred_ca →
  ref_ca ≠ [] → length ref_ca = length pred_ca →
  (∀ l, l ∈ get_atoms ref_structure ++ get_atoms pred_structure →
        is_Some (h !! l)) →
  NoDup (get_atoms pred_structure) →
  ∃ ref_coords pred_coords h',
    Forall2 (fun l c => h !! l = Some c) ref_ca ref_coords ∧
    Forall2 (fun l c => h !! l = Some c) pred_ca pred_coords ∧
    vis_rmde.main ref_structure pred_structure h
    = Ok (vis_rmde.Aligned (superimpose ref_coords pred_coords).1, h') ∧
    ∀ l, h' !! l =
         if decide (l ∈ get_atoms pred_structure)
         then transform (superimpose ref_coords pred_coords).2 <$> h !! l
         else h !! l.
Proof.
  intros Href Hpred Hne Hlen Hlive Hnd.
  destruct (live_coords ref_ca h) as [rcs Hrcs].
  { intros l Hl. apply Hlive, elem_of_app. left.
    by eapply extract_ca_atoms_sub. }
  destruct (live_coords pred_ca h) as [pcs Hpcs].
  { intros l Hl. apply Hlive, elem_of_app. right.
    by eapply extract_ca_atoms_sub. }
  destruct (apply_store (superimpose rcs pcs).2 (get_atoms pred_structure) h)
    as (h' & Hrun & Hh'); [|done|].
  { intros l Hl. apply Hlive, elem_of_app. by right. }
  exists rcs, pcs, h'. split_and!; [done..| |done].
  unfold vis_rmde.main.
  erewrite M_bind_ok; [|unfold lift; by rewrite Href].
  rewrite bool_decide_eq_false_2 by done.
  erewrite M_bind_ok; [|unfold lift; by rewrite Hpred].
  rewrite bool_decide_eq_false_2 by (intros ->; by destruct ref_ca).
  rewrite bool_decide_eq_false_2 by (by intros ?).
  erewrite M_bind_ok; [|by apply set_atoms_ok].
  erewrite M_bind_ok; [|exact Hrun]. done.
Qed.
End alignment.

Lemma filter_chain_id_fresh {A} (cs : list (Chain A)) cid :
  cid ∉ chain_id <$> cs → filter (fun c => chain_id c = cid) cs = [].
Proof.
  induction cs as [|c cs IH]; [done|].
  rewrite fmap_cons, not_elem_of_cons. intros [Hne Hfresh].
  rewrite filter_cons, decide_False by done. by apply IH.
Qed.

Lemma find_filter_unique {A} (cs : list (Chain A)) cid c :
  NoDup (chain_id <$> cs) →
  List.find (fun c => String.eqb (chain_id c) cid) cs = Some c →
  filter (fun c => chain_id c = cid) cs = [c].
Proof.
  induction cs as [|c0 cs IH]; [done|].
  rewrite fmap_cons, NoDup_cons. intros [Hfresh Hnd]. simpl.
  rewrite filter_cons.
  destruct (String.eqb_spec (chain_id c0) cid) as [Hid|Hid].
  - intros [= ->]. rewrite decide_True by done. f_equal.
    apply filter_chain_id_fresh. by rewrite <- Hid.
  - intros Hfind. rewrite decide_False by done. by apply IH.
Qed.

Lemma chains_named_unique {A} (m : Model A) cid c :
  NoDup (chain_id <$> chains m) → model_getitem m cid = Ok c →
  chains_named cid m = [c].
Proof.
  intros Hnd. unfold model_getitem, chains_named.
  destruct (find _ _) as [c'|] eqn:Hfind; [|done]. intros [= ->].
  by apply find_filter_unique.
Qed.

Lemma parse_pdbqt_scan_total `{PyFloat} lines N st :
  ∃ r, for_each (RMSD_Q.parse_pdbqt_body N) lines st = Ok r.
Proof.
  revert st. induction lines as [|line lines IH]; intros [cs k]; simpl.
  - by eexists.
  - rewrite parse_pdbqt_body_entry.
    destruct (ca_entry line) as [xyz|]; simpl; [|apply IH].
    destruct (N <=? k + 1); simpl; [by eexists|apply IH].
Qed.

(** ** The claims *)

(** C1.  [compute_rmsd] returns [None], raises nothing and touches no
    object whenever the two coordinate lists differ in length or one of
    them is empty; so do both copies of the function. *)
Theorem compute_rmsd_no_result `{PyFloat} `{!Superimposer}
    (ref_atoms alt_atoms : list coord) (h : gmap loc coord) :
  length ref_atoms ≠ length alt_atoms ∨ ref_atoms = [] ∨ alt_atoms = [] →
  RMSD_Q.compute_rmsd ref_atoms alt_atoms h = Ok (None, h) ∧
  RMSD_af.compute_rmsd ref_atoms alt_atoms h = Ok (None, h).
Proof.
  intros Hbad. split; [|rewrite compute_rmsd_af]; by apply compute_rmsd_guard.
Qed.

(** C2 (as amended).  For a chain [c] found under its id in model 0 of a
    structure, [extract_ca_atoms] returns exactly the alpha carbons of the
    residues of [c] numbered inside the window, in chain order, skipping
    the residues without alpha carbon; [parse_real_pdb] returns their
    coordinates when that model is the only one and its chain ids are
    distinct.  When the residues of [c] carry pairwise distinct sequence
    numbers and [start_res ≤ end_res], the output is no longer than
    [end_res - start_res + 1], and strictly shorter as soon as one residue
    of the window lacks its alpha carbon. *)
Theorem windowed_extraction `{PyFloat} (s : Structure Atom) (m : Model Atom)
    (c : Chain Atom) (cid : string) (start_res end_res : Z) :
  structure_getitem s 0 = Ok m →
  model_getitem m cid = Ok c →
  vis_rmde.extract_ca_atoms s cid start_res end_res
    = Ok (window_ca c start_res end_res) ∧
  (models s = [m] → NoDup (chain_id <$> chains m) →
     RMSD_Q.parse_real_pdb s cid start_res end_res
       = Ok (atom_coord <$> window_ca c start_res end_res) ∧
     RMSD_af.parse_real_pdb s cid start_res end_res
       = Ok (atom_coord <$> window_ca c start_res end_res)) ∧
  (NoDup (resseq <$> residues c) → start_res ≤ end_res →
     Z.of_nat (length (window_ca c start_res end_res))
       ≤ end_res - start_res + 1) ∧
  (NoDup (resseq <$> residues c) →
     ∀ r, r ∈ residues c → start_res ≤ resseq r ≤ end_res →
          atom_named "CA" (atoms r) = None →
     Z.of_nat (length (window_ca c start_res end_res))
       < end_res - start_res + 1).
Proof.
  intros Hm Hc. split_and!.
  - by eapply extract_ca_atoms_chain.
  - intros Hms Hnd.
    assert (RMSD_Q.parse_real_pdb s cid start_res end_res
            = Ok (atom_coord <$> window_ca c start_res end_res)) as Hq.
    { rewrite parse_real_pdb_structure.
      rewrite (structure_window_ca_single s m c); [done..|].
      by apply chains_named_unique. }
    split; [|rewrite parse_real_pdb_af]; exact Hq.
  - apply window_ca_length.
  - intros Hnd r. by apply window_ca_length_lt.
Qed.

(** C3 (as amended).  For a requested length [N ≥ 1], [parse_pdbqt] returns
    the coordinates of the first [N] alpha-carbon entries of the file, in
    file order, or all of them when there are fewer, so that the output
    length is [min N (number of entries)]; the scan reads up to and
    including the line of the [N]-th entry and nothing after it; and the
    coordinates of a line depend on its fields 6, 7 and 8 only, not on the
    residue-number field. *)
Theorem parse_pdbqt_first_entries `{PyFloat} (lines : list string) (N : Z) :
  1 ≤ N →
  let taken := take (Z.to_nat N) (ca_entries lines) in
  RMSD_Q.parse_pdbqt lines N = Ok taken ∧
  RMSD_af.parse_pdbqt lines N = Ok taken ∧
  Z.of_nat (length taken) = Z.min N (Z.of_nat (length (ca_entries lines))) ∧
  (∃ read unread,
     lines = read ++ unread ∧
     RMSD_Q.parse_pdbqt_scan lines N
       = Ok ((taken, Z.of_nat (length taken)), unread) ∧
     ca_entries read = taken ∧
     (N ≤ Z.of_nat (length (ca_entries lines)) →
        ∃ read' last, read = read' ++ [last] ∧ is_Some (ca_entry last)) ∧
     (Z.of_nat (length (ca_entries lines)) < N → unread = [])) ∧
  (∀ parts parts' : list string,
     parts !! 6%nat = parts' !! 6%nat →
     parts !! 7%nat = parts' !! 7%nat →
     parts !! 8%nat = parts' !! 8%nat →
     RMSD_Q.read_xyz parts = RMSD_Q.read_xyz parts').
Proof.
  intros HN taken.
  destruct (parse_pdbqt_scan_from lines N [] 0) as
    (read & unread & Hsplit & Hrun & Hread & Hstop & Hall); [lia|].
  rewrite Z.sub_0_r in *. simpl in Hrun. fold taken in Hrun, Hread.
  assert (RMSD_Q.parse_pdbqt lines N = Ok taken) as Hparse.
  { unfold RMSD_Q.parse_pdbqt, RMSD_Q.parse_pdbqt_scan. by rewrite Hrun. }
  split_and!; [done|by rewrite parse_pdbqt_af| |by exists read, unread|].
  - unfold taken. rewrite length_take. lia.
  - apply read_xyz_fields.
Qed.


(** [extract_ca_atoms] reads model 0 and nothing else. *)
Lemma extract_ca_atoms_first_model {A} (s : Structure A) (m : Model A)
    (rest : list (Model A)) cid start_res end_res :
  models s = m :: rest → model_id m = 0 →
  vis_rmde.extract_ca_atoms s cid start_res end_res
  = vis_rmde.extract_ca_atoms {| models := [m] |} cid start_res end_res.
Proof.
  intros Hms Hid. unfold vis_rmde.extract_ca_atoms, structure_getitem.
  rewrite Hms. simpl. by rewrite Hid.
Qed.

(** [parse_real_pdb] goes through the models one after the other. *)
Lemma parse_real_pdb_models `{PyFloat} (m : Model Atom)
    (rest : list (Model Atom)) cid start_res end_res :
  RMSD_Q.parse_real_pdb {| models := m :: rest |} cid start_res end_res
  = Ok (atom_coord <$>
         (structure_window_ca {| models := [m] |} cid start_res end_res
          ++ structure_window_ca {| models := rest |} cid start_res end_res)).
Proof.
  rewrite parse_real_pdb_structure. unfold structure_window_ca. simpl.
  by rewrite app_nil_r.
Qed.

(** C5.  On a structure with two models of one chain, both copies of
    [parse_real_pdb] return the alpha carbons of both models, one more
    coordinate than on the first model alone; [extract_ca_atoms] returns
    those of the first model. *)
Theorem parse_real_pdb_reads_every_model :
  RMSD_Q.parse_real_pdb Ex.two_models "A" 1 1
    = Ok [(0, 1, 0)%Q; (5, 1, 0)%Q] ∧
  RMSD_af.parse_real_pdb Ex.two_models "A" 1 1
    = Ok [(0, 1, 0)%Q; (5, 1, 0)%Q] ∧
  RMSD_Q.parse_real_pdb Ex.first_model_only "A" 1 1 = Ok [(0, 1, 0)%Q] ∧
  vis_rmde.extract_ca_atoms Ex.two_models "A" 1 1
    = vis_rmde.extract_ca_atoms Ex.first_model_only "A" 1 1.
Proof. split_and!; reflexivity. Qed.

(** C6 (as amended).  On equal-length, non-empty coordinate lists
    [compute_rmsd] returns the RMSD of the superimposer and leaves every
    object of the store as it was: it only constructs new [DummyAtom]
    objects.  The alignment of [vis_rmde.main] leaves the reference
    structure and every other object untouched, but does not produce the
    transformed candidate as new data: [sup.apply] overwrites in place the
    coordinate of every atom of the predicted structure with its image
    under the rotation/translation found for the alpha carbons. *)
Theorem superposition_frame `{PyFloat} `{!Superimposer}
    (ref_atoms alt_atoms : list coord)
    (ref_structure pred_structure : Structure loc)
    (ref_ca pred_ca : list loc) (h : gmap loc coord) :
  length ref_atoms = length alt_atoms → ref_atoms ≠ [] →
  vis_rmde.extract_ca_atoms ref_structure vis_rmde.CHAIN_ID
    vis_rmde.REF_START_RES vis_rmde.REF_END_RES = Ok ref_ca →
  vis_rmde.extract_ca_atoms pred_structure vis_rmde.CHAIN_ID
    vis_rmde.PRED_START vis_rmde.PRED_END = Ok pred_ca →
  ref_ca ≠ [] → length ref_ca = length pred_ca →
  (∀ l, l ∈ get_atoms ref_structure ++ get_atoms pred_structure →
        is_Some (h !! l)) →
  NoDup (get_atoms pred_structure) →
  (∃ h', RMSD_Q.compute_rmsd ref_atoms alt_atoms h
           = Ok (Some (superimpose ref_atoms alt_atoms).1, h') ∧
         ∀ l c, h !! l = Some c → h' !! l = Some c) ∧
  (∃ ref_coords pred_coords h',
     Forall2 (fun l c => h !! l = Some c) ref_ca ref_coords ∧
     Forall2 (fun l c => h !! l = Some c) pred_ca pred_coords ∧
     vis_rmde.main ref_structure pred_structure h
       = Ok (vis_rmde.Aligned (superimpose ref_coords pred_coords).1, h') ∧
     ∀ l, h' !! l =
          if decide (l ∈ get_atoms pred_structure)
          then transform (superimpose ref_coords pred_coords).2 <$> h !! l
          else h !! l).
Proof.
  intros Hlen Hne Href Hpred Hne_ca Hlen_ca Hlive Hnd. split.
  - destruct (compute_rmsd_runs ref_atoms alt_atoms h Hlen Hne)
      as (h' & Hrun & Hsub).
    exists h'. split; [done|]. intros l c Hl. by eapply lookup_weaken.
  - by apply main_aligns.
Qed.

(** C9.  The copies of [parse_pdbqt] and of [compute_rmsd] in RMSD_Q.py and
    in RMSD_af.py return the same result on every input (and leave the
    same store). *)
Theorem RMSD_copies_agree `{PyFloat} `{!Superimposer} :
  (∀ (lines : list string) (N : Z),
     RMSD_Q.parse_pdbqt lines N = RMSD_af.parse_pdbqt lines N) ∧
  (∀ (ref_atoms alt_atoms : list coord) (h : gmap loc coord),
     RMSD_Q.compute_rmsd ref_atoms alt_atoms h
     = RMSD_af.compute_rmsd ref_atoms alt_atoms h).
Proof.
  split.
  - intros lines N. symmetry. apply parse_pdbqt_af.
  - intros ref_atoms alt_atoms h. symmetry. apply compute_rmsd_af.
Qed.

(** C10.  [parse_pdbqt] returns a coordinate list on every list of lines
    and every length, never raising; and an [ATOM] line with the [ CA ]
    marker that has fewer than nine fields, or text that is no number in
    one of its coordinate fields, changes nothing: the result with the
    line is the result without it, so the line does not count towards
    the limit. *)
Theorem parse_pdbqt_skips_malformed `{PyFloat} (pre post : list string)
    (bad : string) (N : Z) :
  malformed_ca_line bad →
  (∃ coords,
     RMSD_Q.parse_pdbqt (pre ++ bad :: post) N = Ok coords ∧
     RMSD_Q.parse_pdbqt (pre ++ post) N = Ok coords ∧
     RMSD_af.parse_pdbqt (pre ++ bad :: post) N = Ok coords ∧
     RMSD_af.parse_pdbqt (pre ++ post) N = Ok coords) ∧
  (∀ lines, ∃ coords,
     RMSD_Q.parse_pdbqt lines N = Ok coords ∧
     RMSD_af.parse_pdbqt lines N = Ok coords).
Proof.
  intros Hbad.
  assert (∀ lines, ∃ coords, RMSD_Q.parse_pdbqt lines N = Ok coords) as Htotal.
  { intros lines. unfold RMSD_Q.parse_pdbqt, RMSD_Q.parse_pdbqt_scan.
    destruct (parse_pdbqt_scan_total lines N ([], 0)) as [r ->].
    by eexists. }
  assert (∀ lines, RMSD_Q.parse_pdbqt lines N
            = fst <$> (fst <$> for_each (RMSD_Q.parse_pdbqt_body N) lines
                                        ([], 0))) as Hfst.
  { intros lines. unfold RMSD_Q.parse_pdbqt, RMSD_Q.parse_pdbqt_scan.
    by destruct (for_each _ lines _) as [[[cs k] u]|e]. }
  assert (RMSD_Q.parse_pdbqt (pre ++ bad :: post) N
          = RMSD_Q.parse_pdbqt (pre ++ post) N) as Hskip.
  { rewrite !Hfst. f_equal. apply for_each_skip.
    intros [cs k]. rewrite parse_pdbqt_body_entry.
    by rewrite (malformed_no_entry _ Hbad). }
  split.
  - destruct (Htotal (pre ++ post)) as [coords Hcoords].
    exists coords. split_and!; [by rewrite Hskip|done| |].
    + rewrite parse_pdbqt_af. by rewrite Hskip.
    + by rewrite parse_pdbqt_af.
  - intros lines. destruct (Htotal lines) as [coords Hcoords].
    exists coords. split; [done|]. by rewrite parse_pdbqt_af.
Qed.

(** ** Worked instances *)

Import Dec.

(** C1 at the mismatch scenario: a reference of 6 points, a candidate of
    5. *)
Lemma compute_rmsd_no_result_witness :
  length Ex.six_points ≠ length Ex.five_points ∧
  RMSD_Q.compute_rmsd Ex.six_points Ex.five_points ∅ = Ok (None, ∅) ∧
  RMSD_af.compute_rmsd Ex.six_points Ex.five_points ∅ = Ok (None, ∅).
Proof.
  assert (length Ex.six_points ≠ length Ex.five_points) as Hlen
    by (vm_compute; lia).
  split; [exact Hlen|].
  apply (compute_rmsd_no_result Ex.six_points Ex.five_points ∅).
  left. exact Hlen.
Defined.

(** C2 at residues 10 to 20 of which 15 and 16 lack the alpha carbon: nine
    atoms come out, in ascending order. *)
Lemma windowed_extraction_witness :
  structure_getitem Ex.structure_10_20 0 = Ok Ex.model_10_20 ∧
  model_getitem Ex.model_10_20 "A" = Ok Ex.chain_10_20 ∧
  vis_rmde.extract_ca_atoms Ex.structure_10_20 "A" 10 20
    = Ok (window_ca Ex.chain_10_20 10 20) ∧
  RMSD_Q.parse_real_pdb Ex.structure_10_20 "A" 10 20
    = Ok (atom_coord <$> window_ca Ex.chain_10_20 10 20) ∧
  Z.of_nat (length (window_ca Ex.chain_10_20 10 20)) < 20 - 10 + 1 ∧
  resseq <$> List.filter (fun r => residue_contains "CA" r)
                         (residues Ex.chain_10_20)
    = [10; 11; 12; 13; 14; 17; 18; 19; 20].
Proof.
  assert (structure_getitem Ex.structure_10_20 0 = Ok Ex.model_10_20) as Hm
    by reflexivity.
  assert (model_getitem Ex.model_10_20 "A" = Ok Ex.chain_10_20) as Hc
    by reflexivity.
  destruct (windowed_extraction Ex.structure_10_20 Ex.model_10_20
              Ex.chain_10_20 "A" 10 20 Hm Hc) as (Hex & Hparse & _ & Hlt).
  assert (NoDup (resseq <$> residues Ex.chain_10_20)) as Hnd
    by (refine (bool_decide_unpack _ _); vm_compute; exact I).
  assert (NoDup (chain_id <$> chains Ex.model_10_20)) as Hids
    by (refine (bool_decide_unpack _ _); vm_compute; exact I).
  split_and!; [exact Hm|exact Hc|exact Hex| | |reflexivity].
  - exact (proj1 (Hparse eq_refl Hids)).
  - apply (Hlt Hnd (Ex.residue 15 " " (Ex.at_ 15 0 0) None)).
    + apply (list_elem_of_lookup_2 _ 5%nat). reflexivity.
    + simpl. lia.
    + reflexivity.
Defined.

(** C2 as first stated fails on two residues that share the number 52:
    the window [52, 52] yields two atoms. *)
Lemma windowed_extraction_counterexample :
  vis_rmde.extract_ca_atoms Ex.structure_52 "A" 52 52
    = Ok [Ex.at_ 1 0 0; Ex.at_ 4 0 0] ∧
  RMSD_Q.parse_real_pdb Ex.structure_52 "A" 52 52
    = Ok [(1, 0, 0)%Q; (4, 0, 0)%Q] ∧
  ¬ (Z.of_nat (length [Ex.at_ 1 0 0; Ex.at_ 4 0 0]) ≤ 52 - 52 + 1).
Proof. split_and!; [reflexivity..|simpl; lia]. Qed.

(** C3 at a request for two entries of a file that holds three. *)
Lemma parse_pdbqt_first_entries_witness :
  1 ≤ 2 ∧
  RMSD_Q.parse_pdbqt Ex.pdbqt_lines 2 = Ok [(1, 2, 3)%Q; (9 # 2, 5, 6)%Q] ∧
  RMSD_Q.parse_pdbqt_scan Ex.pdbqt_lines 2
    = Ok (([(1, 2, 3)%Q; (9 # 2, 5, 6)%Q], 2), drop 5 Ex.pdbqt_lines).
Proof.
  assert (1 ≤ 2) as HN by lia.
  destruct (parse_pdbqt_first_entries Ex.pdbqt_lines 2 HN)
    as (Hparse & _ & _ & _ & _).
  split_and!; [exact HN|exact Hparse|reflexivity].
Defined.

(** C3 as first stated fails at length 0: the first entry is still
    collected before the limit is tested. *)
Lemma parse_pdbqt_zero_length_counterexample :
  RMSD_Q.parse_pdbqt Ex.one_ca_line 0 = Ok [(1, 2, 3)%Q] ∧
  ca_entries Ex.one_ca_line = [(1, 2, 3)%Q] ∧
  Z.of_nat (length [(1, 2, 3)%Q])
    ≠ Z.min 0 (Z.of_nat (length (ca_entries Ex.one_ca_line))).
Proof. split_and!; [reflexivity..|vm_compute; discriminate]. Qed.



(** C6 at two one-residue structures: the run of [main] ends in the store
    in which both atoms of the predicted structure have moved. *)
Lemma superposition_frame_witness :
  ∃ h',
    RMSD_Q.compute_rmsd [(0, 0, 0)%Q] [(1, 0, 0)%Q] Ex.store_before
      = Ok (Some 0%Q, h') ∧
    (∀ l c, Ex.store_before !! l = Some c → h' !! l = Some c) ∧
    vis_rmde.main Ex.ref_structure Ex.pred_structure Ex.store_before
      = Ok (vis_rmde.Aligned 0%Q, Ex.store_after).
Proof.
  assert (∀ l, l ∈ get_atoms Ex.ref_structure ++ get_atoms Ex.pred_structure →
               is_Some (Ex.store_before !! l)) as Hlive.
  { intros l Hl. change (l ∈ [0; 1; 2; 3]%nat) in Hl.
    repeat (apply elem_of_cons in Hl as [->|Hl]; [by eexists|]).
    by apply not_elem_of_nil in Hl. }
  assert (NoDup (get_atoms Ex.pred_structure)) as Hnd
    by (refine (bool_decide_unpack _ _); vm_compute; exact I).
  destruct (superposition_frame (H := Dec.dec_float)
              [(0, 0, 0)%Q] [(1, 0, 0)%Q]
              Ex.ref_structure Ex.pred_structure [1%nat] [3%nat]
              Ex.store_before)
    as [(h' & Hrun & Hframe) _];
    [reflexivity|discriminate|reflexivity|reflexivity|discriminate
    |reflexivity|exact Hlive|exact Hnd|].
  exists h'. split_and!; [exact Hrun|exact Hframe|].
  vm_compute. reflexivity.
Defined.

(** C6 as first stated fails: after the alignment of [main] the alpha
    carbon of the predicted structure sits on that of the reference, and
    its other atom has moved with it. *)
Lemma superposition_in_place_counterexample :
  vis_rmde.main Ex.ref_structure Ex.pred_structure Ex.store_before
    = Ok (vis_rmde.Aligned 0%Q, Ex.store_after) ∧
  get_atoms Ex.pred_structure = [2; 3]%nat ∧
  Ex.store_before !! 3%nat = Some (1, 0, 0)%Q ∧
  Ex.store_after !! 3%nat = Some (0, 0, 0)%Q ∧
  Ex.store_before !! 2%nat = Some (1, 1, 0)%Q ∧
  Ex.store_after !! 2%nat = Some (0, 1, 0)%Q ∧
  Ex.store_after ≠ Ex.store_before.
Proof.
  split_and!; [vm_compute; reflexivity|reflexivity..|].
  intros Heq. apply (f_equal (fun h => h !! 3%nat)) in Heq.
  vm_compute in Heq. discriminate Heq.
Qed.

(** C10 at a record cut short after its second coordinate, and at one
    with text in a coordinate column. *)
Lemma parse_pdbqt_skips_malformed_witness :
  malformed_ca_line Ex.short_line ∧
  (∃ coords,
     RMSD_Q.parse_pdbqt (Ex.pdbqt_lines ++ Ex.short_line :: Ex.one_ca_line) 4
       = Ok coords ∧
     RMSD_Q.parse_pdbqt (Ex.pdbqt_lines ++ Ex.one_ca_line) 4 = Ok coords) ∧
  RMSD_Q.parse_pdbqt (Ex.pdbqt_lines ++ Ex.short_line :: Ex.one_ca_line) 4
    = Ok [(1, 2, 3)%Q; (9 # 2, 5, 6)%Q; (7, 8, 37 # 4)%Q; (1, 2, 3)%Q] ∧
  RMSD_Q.parse_pdbqt (Ex.pdbqt_lines ++ Ex.text_line :: Ex.one_ca_line) 4
    = Ok [(1, 2, 3)%Q; (9 # 2, 5, 6)%Q; (7, 8, 37 # 4)%Q; (1, 2, 3)%Q].
Proof.
  assert (malformed_ca_line (H := Dec.dec_float) Ex.short_line) as Hbad.
  { split_and!; [reflexivity..|]. left. vm_compute. lia. }
  destruct (parse_pdbqt_skips_malformed Ex.pdbqt_lines Ex.one_ca_line
              Ex.short_line 4 Hbad) as [(coords & H1 & H2 & _) _].
  split_and!; [exact Hbad|by exists coords|reflexivity..].
Defined.

(** * Further properties *)

(** ** Dictionaries *)

Section dict.
Context {V : Type}.
Implicit Types (d : dict V) (k : string) (v : V).

Lemma dict_get_setitem k k' v d :
  dict_get k' (dict_setitem k v d)
  = if decide (k' = k) then Some v else dict_get k' d.
Proof.
  induction d as [|[k0 v0] d IH]; simpl.
  - destruct (String.eqb_spec k k'); case_decide; congruence.
  - destruct (String.eqb_spec k0 k) as [->|Hne]; simpl.
    + destruct (String.eqb_spec k k'); case_decide; congruence.
    + destruct (String.eqb_spec k0 k') as [->|Hne']; simpl.
      * by rewrite decide_False by congruence.
      * apply IH.
Qed.

Lemma dict_get_keys k d : is_Some (dict_get k d) ↔ k ∈ d.*1.
Proof.
  induction d as [|[k0 v0] d IH]; simpl.
  - split; [by intros [? ?]|by intros ?%elem_of_nil].
  - rewrite elem_of_cons. destruct (String.eqb_spec k0 k) as [->|Hne].
    + split; [by left|by eexists].
    + rewrite IH. split; [by right|]. intros [?|?]; [congruence|done].
Qed.

Lemma dict_setitem_keys k v d :
  (dict_setitem k v d).*1 = if decide (k ∈ d.*1) then d.*1 else d.*1 ++ [k].
Proof.
  induction d as [|[k0 v0] d IH].
  - destruct (decide (k ∈ ([] : dict V).*1)) as [Hin|_]; [|done].
    by apply elem_of_nil in Hin.
  - cbn [dict_setitem]. rewrite !fmap_cons. cbn [fst].
    destruct (String.eqb_spec k0 k) as [->|Hne].
    + by rewrite decide_True by left.
    + rewrite fmap_cons, IH. cbn [fst].
      destruct (decide (k ∈ d.*1)) as [Hin|Hout].
      * by rewrite decide_True by (by right).
      * rewrite decide_False; [done|].
        intros [?|?]%elem_of_cons; congruence.
Qed.

Lemma dict_setitem_NoDup k v d : NoDup d.*1 → NoDup (dict_setitem k v d).*1.
Proof.
  intros Hnd. rewrite dict_setitem_keys. case_decide; [done|].
  apply NoDup_app. split_and!; [done| |apply NoDup_singleton].
  intros x Hx ->%list_elem_of_singleton. done.
Qed.

Lemma dict_of_items_snoc (items : list (string * V)) k v :
  dict_of_items (items ++ [(k, v)]) = dict_setitem k v (dict_of_items items).
Proof. unfold dict_of_items. by rewrite fold_left_app. Qed.

Lemma dict_of_items_NoDup (items : list (string * V)) :
  NoDup (dict_of_items items).*1.
Proof.
  induction items as [|[k v] items IH] using rev_ind.
  - apply NoDup_nil_2.
  - rewrite dict_of_items_snoc. by apply dict_setitem_NoDup.
Qed.

(** Lookup after a sequence of assignments: the last one to the key. *)
Lemma dict_of_items_get (items : list (string * V)) k :
  dict_get k (dict_of_items items)
  = snd <$> last (filter (fun item => item.1 = k) items).
Proof.
  induction items as [|[k0 v0] items IH] using rev_ind; [done|].
  rewrite dict_of_items_snoc, dict_get_setitem, filter_app, filter_cons. simpl.
  destruct (decide (k0 = k)) as [->|Hne].
  - rewrite decide_True by done. by rewrite filter_nil, last_snoc.
  - rewrite decide_False by congruence. by rewrite filter_nil, app_nil_r.
Qed.

Lemma dict_of_items_keys (items : list (string * V)) k :
  k ∈ (dict_of_items items).*1 ↔ k ∈ items.*1.
Proof.
  induction items as [|[k0 v0] items IH] using rev_ind; [done|].
  rewrite dict_of_items_snoc, dict_setitem_keys, fmap_app, elem_of_app. simpl.
  case_decide as Hin; rewrite ?elem_of_app, IH, list_elem_of_singleton.
  - split; [by left|]. intros [?| ->]; [done|]. by apply IH.
  - done.
Qed.
End dict.

(** ** The top list and the benchmark index *)

Lemma for_in_omap {X E S} (body : X → S → result S) (f : X → option E)
    (g : S → E → S) (xs : list X) (st : S) :
  (∀ x st, body x st = Ok match f x with
                          | Some e => g st e
                          | None => st
                          end) →
  for_in body xs st = Ok (fold_left g (omap f xs) st).
Proof.
  intros Hbody. revert st. induction xs as [|x xs IH]; intros st; [done|].
  cbn [for_in]. rewrite Hbody. csimpl. destruct (f x); simpl; apply IH.
Qed.

Lemma parse_top_list_items lines :
  RMSD_Q.parse_top_list lines = Ok (dict_of_items (omap top_entry lines)).
Proof.
  unfold RMSD_Q.parse_top_list, dict_of_items.
  apply (for_in_omap _ top_entry
           (fun d (item : string * string) => dict_setitem item.1 item.2 d)).
  intros line d. unfold top_entry.
  destruct (String.eqb (strip line) "" || startswith (strip line) "#");
    [done|].
  destruct (split (strip line)) as [|pdb_id [|top_name parts]]; done.
Qed.

Lemma length_lstrip s : (String.length (lstrip s) ≤ String.length s)%nat.
Proof.
  induction s as [|a s IH]; simpl; [done|].
  destruct (isspace a); simpl; lia.
Qed.

Lemma length_rstrip s : (String.length (rstrip s) ≤ String.length s)%nat.
Proof.
  induction s as [|a s IH]; simpl; [done|].
  destruct (rstrip s); [destruct (isspace a)|]; simpl in *; lia.
Qed.

Lemma length_strip s : (String.length (strip s) ≤ String.length s)%nat.
Proof.
  unfold strip. pose proof (length_rstrip (lstrip s)).
  pose proof (length_lstrip s). lia.
Qed.

Lemma length_span f s :
  String.length s
  = (String.length (span f s).1 + String.length (span f s).2)%nat.
Proof.
  induction s as [|a s IH]; simpl; [done|].
  destruct (f a); [|done]. destruct (span f s); simpl in *. lia.
Qed.

Lemma length_after_prefix_nocase p s rest :
  after_prefix_nocase p s = Some rest →
  (String.length rest ≤ String.length s)%nat.
Proof.
  revert s. induction p as [|b p IH]; intros [|a s]; simpl; try done.
  - by intros [= <-].
  - by intros [= <-].
  - destruct (Ascii.eqb (lower a) b); [|done]. intros Hrest%IH. lia.
Qed.

Lemma length_residue_pat_match s group1 group2 :
  RMSD_Q.residue_pat_match s = Some (group1, group2) →
  (String.length group1 ≤ String.length s)%nat ∧
  (String.length group2 ≤ String.length s)%nat.
Proof.
  unfold RMSD_Q.residue_pat_match.
  destruct (after_prefix_nocase "residues" s) as [r0|] eqn:Hpre; [|done].
  apply length_after_prefix_nocase in Hpre. simpl.
  pose proof (length_span isspace r0) as H1.
  destruct (span isspace r0) as [spaces r1]. simpl in H1.
  destruct (String.eqb spaces ""); [done|].
  pose proof (length_span isdigit r1) as H2.
  destruct (span isdigit r1) as [g1 r2]. simpl in H2.
  destruct (String.eqb g1 ""); [done|].
  destruct r2 as [|a r3]; [done|].
  destruct (Ascii.eqb_spec a "-") as [->|Hne].
  - pose proof (length_span isdigit r3) as H3.
    destruct (span isdigit r3) as [g2 r4]. simpl in H3.
    destruct (String.eqb g2 ""); [done|]. intros [= <- <-].
    simpl in *. lia.
  - destruct a as [[] [] [] [] [] [] [] []]; try done.
Qed.

Lemma length_residue_pat_search s group1 group2 :
  RMSD_Q.residue_pat_search s = Some (group1, group2) →
  (String.length group1 ≤ String.length s)%nat ∧
  (String.length group2 ≤ String.length s)%nat.
Proof.
  induction s as [|a s IH]; [done|].
  cbn [RMSD_Q.residue_pat_search].
  destruct (RMSD_Q.residue_pat_match (String a s)) as [[g1 g2]|] eqn:Hm.
  - intros [= <- <-]. by apply length_residue_pat_match in Hm.
  - intros [? ?]%IH. simpl. lia.
Qed.


Section index.
Context `{PyInt}.

Lemma int_of_digits_within line group :
  within_int_limit line →
  (String.length group ≤ String.length line)%nat →
  int_of_digits group = Ok (digits_value 0 group).
Proof.
  intros [Hoff|Hlen] Hgroup; unfold int_of_digits.
  - rewrite Hoff. done.
  - replace (int_max_str_digits <? String.length group)%nat with false;
      [by rewrite andb_false_r|].
    symmetry. apply Nat.ltb_ge. lia.
Qed.

Lemma index_entry_groups line pdb_id chain_id group1 group2 :
  index_entry line = Some (pdb_id, chain_id, (group1, group2)) →
  (String.length group1 ≤ String.length line)%nat ∧
  (String.length group2 ≤ String.length line)%nat.
Proof.
  unfold index_entry.
  destruct (String.eqb (strip line) ""); [done|].
  destruct (startswith (strip line) "[" || startswith (strip line) "length_");
    [done|].
  destruct (split (strip line)) as [|p0 [|p1 [|p2 [|p3 [|p4 parts]]]]];
    try done.
  destruct (RMSD_Q.residue_pat_search (strip line)) as [[g1 g2]|] eqn:Hs;
    [|done].
  intros [= <- <- <- <-]. apply length_residue_pat_search in Hs.
  pose proof (length_strip line). lia.
Qed.

(** One iteration of the loop of [parse_index_file]. *)
Lemma parse_index_file_body line (d : dict (string * Z * Z)) :
  (let line_s := strip line in
   if String.eqb line_s "" then mret d
   else if startswith line_s "[" || startswith line_s "length_" then mret d
   else
     let parts := split line_s in
     if (length parts <? 5)%nat then mret d
     else
       pdb_id ← getitem parts 0;
       chain_id ← getitem parts 2;
       match RMSD_Q.residue_pat_search line_s with
       | Some (group1, group2) =>
           start_res ← int_of_digits group1;
           end_res ← int_of_digits group2;
           mret (dict_setitem pdb_id (chain_id, start_res, end_res) d)
       | None => mret d
       end)
  = match index_entry line with
    | Some (pdb_id, chain_id, (group1, group2)) =>
        start_res ← int_of_digits group1;
        end_res ← int_of_digits group2;
        Ok (dict_setitem pdb_id (chain_id, start_res, end_res) d)
    | None => Ok d
    end.
Proof.
  unfold index_entry. simpl.
  destruct (String.eqb (strip line) ""); [done|].
  destruct (startswith (strip line) "[" || startswith (strip line) "length_");
    [done|].
  destruct (split (strip line)) as [|p0 [|p1 [|p2 [|p3 [|p4 parts]]]]];
    try done.
  simpl. by destruct (RMSD_Q.residue_pat_search (strip line)) as [[g1 g2]|].
Qed.

Lemma parse_index_file_items lines :
  Forall within_int_limit lines →
  RMSD_Q.parse_index_file lines = Ok (dict_of_items (omap index_item lines)).
Proof.
  unfold RMSD_Q.parse_index_file, dict_of_items.
  generalize ([] : dict (string * Z * Z)) as d.
  induction lines as [|line lines IH]; intros d Hlim; [done|].
  apply Forall_cons in Hlim as [Hline Hlim].
  cbn [for_in]. rewrite parse_index_file_body. unfold index_item. csimpl.
  destruct (index_entry line) as [[[pdb_id chain_id] [g1 g2]]|] eqn:Hentry;
    simpl; [|by apply IH].
  apply index_entry_groups in Hentry as [Hg1 Hg2].
  rewrite (int_of_digits_within line g1), (int_of_digits_within line g2)
    by done.
  simpl. by apply IH.
Qed.

Lemma parse_index_file_af lines :
  RMSD_af.parse_index_file lines = RMSD_Q.parse_index_file lines.
Proof. reflexivity. Qed.
End index.

(** ** The batch drivers *)


Lemma parse_pdbqt_length `{PyFloat} lines N coords :
  1 ≤ N → RMSD_Q.parse_pdbqt lines N = Ok coords →
  Z.of_nat (length coords) ≤ N.
Proof.
  intros HN Hparse.
  destruct (parse_pdbqt_scan_from lines N [] 0) as
    (read & unread & _ & Hrun & _); [lia|].
  unfold RMSD_Q.parse_pdbqt, RMSD_Q.parse_pdbqt_scan in Hparse.
  rewrite Hrun in Hparse. simpl in Hparse. injection Hparse as <-.
  rewrite length_take. lia.
Qed.

Section drivers.
Context `{PyFloat} `{!Superimposer} `{!PyInt} `{!PyFormat} `{!FileSystem}.
Implicit Types h : gmap loc coord.

Lemma M_bind_lift {X Y} (r : result X) (f : X → M Y) h :
  (lift r ≫= f) h = match r with
                    | Ok x => f x h
                    | Raise e => Raise e
                    end.
Proof. unfold mbind, M_bind, lift. by destruct r. Qed.

Lemma dict_contains_get {V} k (d : dict V) :
  dict_contains k d = true → ∃ v, dict_get k d = Some v.
Proof. unfold dict_contains. destruct (dict_get k d); [by eexists|done]. Qed.





End drivers.

(** ** More on [parse_pdbqt] *)

Section parse_pdbqt_more.
Context `{PyFloat}.

Lemma parse_pdbqt_take lines N :
  1 ≤ N →
  RMSD_Q.parse_pdbqt lines N = Ok (take (Z.to_nat N) (ca_entries lines)).
Proof.
  intros HN.
  destruct (parse_pdbqt_scan_from lines N [] 0) as
    (read & unread & _ & Hrun & _); [lia|].
  unfold RMSD_Q.parse_pdbqt, RMSD_Q.parse_pdbqt_scan. rewrite Hrun. simpl.
  by rewrite Z.sub_0_r.
Qed.

(** From a loop state at or beyond the limit, the scan ends at the next
    entry. *)
Lemma parse_pdbqt_scan_next lines N cs k :
  N ≤ k + 1 →
  (fun r : list coord * Z * list string => r.1.1)
    <$> for_each (RMSD_Q.parse_pdbqt_body N) lines (cs, k)
  = Ok (cs ++ take 1 (ca_entries lines)).
Proof.
  intros Hk. induction lines as [|line lines IH]; simpl.
  - by rewrite app_nil_r.
  - rewrite parse_pdbqt_body_entry. unfold ca_entries in *. csimpl.
    destruct (ca_entry line) as [xyz|]; simpl; [|exact IH].
    replace (N <=? k + 1) with true by (symmetry; apply Z.leb_le; lia).
    done.
Qed.

(** X1.  For a requested length of 1 or less, zero and negative lengths
    included, both copies of [parse_pdbqt] return the first alpha-carbon
    entry of the file, or nothing when the file has none. *)
Theorem parse_pdbqt_small_length (lines : list string) (N : Z) :
  N ≤ 1 →
  RMSD_Q.parse_pdbqt lines N = Ok (take 1 (ca_entries lines)) ∧
  RMSD_af.parse_pdbqt lines N = Ok (take 1 (ca_entries lines)).
Proof.
  intros HN.
  assert (RMSD_Q.parse_pdbqt lines N = Ok (take 1 (ca_entries lines))) as Hq.
  { pose proof (parse_pdbqt_scan_next lines N [] 0 ltac:(lia)) as Hscan.
    unfold RMSD_Q.parse_pdbqt, RMSD_Q.parse_pdbqt_scan.
    by destruct (for_each _ lines _) as [[[cs k] u]|e]. }
  split; [done|]. by rewrite parse_pdbqt_af.
Qed.

(** X2.  Reading a file made of two parts, for a length [N ≥ 1]: when the
    first part holds [N] entries the second part is never looked at;
    otherwise the result is all entries of the first part followed by
    what [parse_pdbqt] returns on the second part for the remaining
    length. *)
Theorem parse_pdbqt_app (lines1 lines2 : list string) (N : Z) :
  1 ≤ N →
  let n1 := Z.of_nat (length (ca_entries lines1)) in
  (N ≤ n1 →
     RMSD_Q.parse_pdbqt (lines1 ++ lines2) N = RMSD_Q.parse_pdbqt lines1 N) ∧
  (n1 < N →
     ∃ coords2,
       RMSD_Q.parse_pdbqt lines2 (N - n1) = Ok coords2 ∧
       RMSD_Q.parse_pdbqt (lines1 ++ lines2) N
         = Ok (ca_entries lines1 ++ coords2)).
Proof.
  intros HN n1. split; intros Hn1.
  - rewrite !parse_pdbqt_take by done. f_equal.
    unfold ca_entries. rewrite omap_app, take_app_le; [done|].
    fold (ca_entries lines1). lia.
  - exists (take (Z.to_nat (N - n1)) (ca_entries lines2)).
    rewrite !parse_pdbqt_take by lia. split; [done|]. f_equal.
    unfold ca_entries. rewrite omap_app, take_app_ge.
    + do 2 f_equal. fold (ca_entries lines1). lia.
    + fold (ca_entries lines1). lia.
Qed.

(** X3.  Asking for more entries only extends the result: for
    [1 ≤ N ≤ N'] the coordinates returned for [N] are a prefix of those
    returned for [N']. *)
Theorem parse_pdbqt_prefix (lines : list string) (N N' : Z) :
  1 ≤ N → N ≤ N' →
  ∃ coords coords',
    RMSD_Q.parse_pdbqt lines N = Ok coords ∧
    RMSD_Q.parse_pdbqt lines N' = Ok coords' ∧
    coords `prefix_of` coords'.
Proof.
  intros HN HN'. eexists _, _. rewrite !parse_pdbqt_take by lia.
  split_and!; [done..|].
  exists (drop (Z.to_nat N) (take (Z.to_nat N') (ca_entries lines))).
  rewrite <- (take_drop (Z.to_nat N) (take _ _)) at 1.
  f_equal. rewrite take_take. f_equal. lia.
Qed.
End parse_pdbqt_more.

(** ** More on the windowed extractors *)

Lemma atom_named_sublist {A} name (l : list (string * A)) :
  option_list (atom_named name l) `sublist_of` l.*2.
Proof.
  induction l as [|[n a] l IH]; csimpl; [done|].
  destruct (String.eqb n name); simpl.
  - apply sublist_skip, sublist_nil_l.
  - by apply sublist_cons.
Qed.

Lemma omap_bind_option_list {X Y} (f : X → option Y) (l : list X) :
  omap f l = l ≫= fun x => option_list (f x).
Proof.
  induction l as [|x l IH]; csimpl; [done|].
  rewrite <- IH. by destruct (f x).
Qed.

Lemma bind_sublist_pointwise {X Y} (f g : X → list Y) (l : list X) :
  (∀ x, f x `sublist_of` g x) → l ≫= f `sublist_of` l ≫= g.
Proof.
  intros Hfg. induction l as [|x l IH]; csimpl; [done|].
  by apply sublist_app.
Qed.

Lemma window_ca_sublist {A} (c : Chain A) start_res end_res :
  window_ca c start_res end_res `sublist_of` chain_get_atoms c.
Proof.
  unfold window_ca, chain_get_atoms. rewrite omap_bind_option_list.
  etrans.
  - apply bind_sublist, sublist_filter.
  - apply bind_sublist_pointwise. intros r. apply atom_named_sublist.
Qed.

Lemma elem_sublist_bind {X Y} (f : X → list Y) (l : list X) x :
  x ∈ l → f x `sublist_of` l ≫= f.
Proof.
  induction 1 as [x l|x y l Hx IH]; csimpl.
  - by apply sublist_inserts_r.
  - by apply sublist_inserts_l.
Qed.

(** X4.  On any structure, whatever the number of its models and of
    its chains of the requested id, both copies of [parse_real_pdb] return
    without raising the alpha-carbon coordinates of the window, model
    after model and chain after chain; the result on a list of models is
    the result on the first model followed by the result on the others. *)
Theorem parse_real_pdb_every_model `{PyFloat} (s : Structure Atom)
    (cid : string) (start_res end_res : Z) :
  RMSD_Q.parse_real_pdb s cid start_res end_res
    = Ok (atom_coord <$> structure_window_ca s cid start_res end_res) ∧
  RMSD_af.parse_real_pdb s cid start_res end_res
    = Ok (atom_coord <$> structure_window_ca s cid start_res end_res) ∧
  ∀ m rest, models s = m :: rest →
    ∃ coords1 coords2,
      RMSD_Q.parse_real_pdb {| models := [m] |} cid start_res end_res
        = Ok coords1 ∧
      RMSD_Q.parse_real_pdb {| models := rest |} cid start_res end_res
        = Ok coords2 ∧
      RMSD_Q.parse_real_pdb s cid start_res end_res = Ok (coords1 ++ coords2).
Proof.
  split_and!.
  - apply parse_real_pdb_structure.
  - rewrite parse_real_pdb_af. apply parse_real_pdb_structure.
  - intros m rest Hms. eexists _, _. rewrite !parse_real_pdb_structure.
    split_and!; [done..|]. f_equal. rewrite <- fmap_app. f_equal.
    unfold structure_window_ca. rewrite Hms. csimpl. by rewrite app_nil_r.
Qed.

(** X5.  [extract_ca_atoms] looks at model 0 only: on a structure whose
    model 0 is [m] it returns what it returns on [m] alone, and on a
    structure without model 0 it fails with [KeyError(0)]. *)
Theorem extract_ca_atoms_model_0 {A} (s : Structure A) (cid : string)
    (start_res end_res : Z) :
  (∀ m, structure_getitem s 0 = Ok m →
     vis_rmde.extract_ca_atoms s cid start_res end_res
     = vis_rmde.extract_ca_atoms {| models := [m] |} cid start_res end_res) ∧
  ((∀ m, m ∈ models s → model_id m ≠ 0) →
     vis_rmde.extract_ca_atoms s cid start_res end_res
     = Raise (KeyError (KInt 0))).
Proof.
  split.
  - intros m Hm. pose proof (structure_getitem_elem _ _ _ Hm) as [_ Hid].
    unfold vis_rmde.extract_ca_atoms. rewrite Hm.
    unfold structure_getitem. simpl. by rewrite Hid.
  - intros Hno. unfold vis_rmde.extract_ca_atoms, structure_getitem.
    destruct (find _ _) as [m|] eqn:Hfind; [|done].
    apply find_some in Hfind as [Hin Hid].
    apply list_elem_of_In in Hin. apply Z.eqb_eq in Hid.
    by destruct (Hno m Hin).
Qed.

(** X6.  The atoms [extract_ca_atoms] returns are atoms of the structure
    itself, in the order of the structure: the result is a sublist of
    [structure.get_atoms()], so that no atom is returned twice when the
    structure holds none twice. *)
Theorem extract_ca_atoms_sublist {A} (s : Structure A) (cid : string)
    (start_res end_res : Z) (ca_atoms : list A) :
  vis_rmde.extract_ca_atoms s cid start_res end_res = Ok ca_atoms →
  ca_atoms `sublist_of` get_atoms s ∧
  (NoDup (get_atoms s) → NoDup ca_atoms).
Proof.
  intros Hex.
  assert (ca_atoms `sublist_of` get_atoms s) as Hsub.
  { destruct (structure_getitem s 0) as [m|e] eqn:Hm;
      [|revert Hex; unfold vis_rmde.extract_ca_atoms; by rewrite Hm].
    destruct (model_getitem m cid) as [c|e] eqn:Hc;
      [|revert Hex; unfold vis_rmde.extract_ca_atoms; rewrite Hm; simpl;
        by rewrite Hc].
    rewrite (extract_ca_atoms_chain _ _ _ _ _ _ Hm Hc) in Hex.
    injection Hex as <-.
    apply structure_getitem_elem in Hm as [Hm _].
    apply model_getitem_elem in Hc as [Hc _].
    etrans; [apply window_ca_sublist|].
    etrans; [apply (elem_sublist_bind chain_get_atoms _ _ Hc)|].
    apply (elem_sublist_bind model_get_atoms _ _ Hm). }
  split; [done|]. intros Hnd. by eapply sublist_NoDup.
Qed.

(** X7.  An empty window, [end_res < start_res], selects nothing:
    [parse_real_pdb] returns the empty list on every structure, and
    [extract_ca_atoms] returns it whenever the chain exists. *)
Theorem empty_window `{PyFloat} (s : Structure Atom) (m : Model Atom)
    (c : Chain Atom) (cid : string) (start_res end_res : Z) :
  end_res < start_res →
  RMSD_Q.parse_real_pdb s cid start_res end_res = Ok [] ∧
  RMSD_af.parse_real_pdb s cid start_res end_res = Ok [] ∧
  (structure_getitem s 0 = Ok m → model_getitem m cid = Ok c →
   vis_rmde.extract_ca_atoms s cid start_res end_res = Ok []).
Proof.
  intros Hempty.
  assert (∀ c' : Chain Atom, window_ca c' start_res end_res = []) as Hwin.
  { intros c'. unfold window_ca.
    induction (residues c') as [|r rs IH]; [done|].
    rewrite filter_cons, decide_False by lia. exact IH. }
  assert (structure_window_ca s cid start_res end_res = []) as Hall.
  { unfold structure_window_ca.
    induction (models s) as [|m' ms IHm]; [done|].
    rewrite bind_cons, IHm, app_nil_r.
    induction (chains_named cid m') as [|c' cs IHc]; [done|].
    by rewrite bind_cons, IHc, Hwin. }
  split_and!.
  - by rewrite parse_real_pdb_structure, Hall.
  - by rewrite parse_real_pdb_af, parse_real_pdb_structure, Hall.
  - intros Hm Hc. by rewrite (extract_ca_atoms_chain _ _ _ _ _ _ Hm Hc), Hwin.
Qed.

(** X21.  [ResidueSelect.accept_residue] answers 1 or 0, and 1 exactly
    for a residue whose sequence number lies in the window; the chain id
    the selection was built with plays no part, so residues of every chain
    are accepted alike.  On the chain it reads, [extract_ca_atoms] returns
    the alpha carbons of the residues that the selection of the same
    window accepts, whatever chain id the selection carries. *)
Theorem accept_residue_window {A} (self : vis_rmde.ResidueSelect)
    (s : Structure A) (m : Model A) (c : Chain A) (cid : string) :
  structure_getitem s 0 = Ok m → model_getitem m cid = Ok c →
  (∀ residue : Residue A,
     (vis_rmde.accept_residue self residue = 1 ∧
      vis_rmde.start_res self ≤ resseq residue ≤ vis_rmde.end_res self) ∨
     (vis_rmde.accept_residue self residue = 0 ∧
      ¬ vis_rmde.start_res self ≤ resseq residue ≤ vis_rmde.end_res self)) ∧
  (∀ (other : string) (residue : Residue A),
     vis_rmde.accept_residue
       {| vis_rmde.chain_id := other;
          vis_rmde.start_res := vis_rmde.start_res self;
          vis_rmde.end_res := vis_rmde.end_res self |} residue
     = vis_rmde.accept_residue self residue) ∧
  vis_rmde.extract_ca_atoms s cid (vis_rmde.start_res self)
    (vis_rmde.end_res self)
  = Ok (omap (fun residue => atom_named "CA" (atoms residue))
          (filter (fun residue => vis_rmde.accept_residue self residue = 1)
                  (residues c))).
Proof.
  intros Hm Hc.
  assert (∀ residue : Residue A,
            vis_rmde.accept_residue self residue = 1 ↔
            vis_rmde.start_res self ≤ resseq residue ≤ vis_rmde.end_res self)
    as Hacc.
  { intros residue. unfold vis_rmde.accept_residue.
    destruct (Z.leb_spec (vis_rmde.start_res self) (resseq residue));
      destruct (Z.leb_spec (resseq residue) (vis_rmde.end_res self));
      simpl; split; (lia || discriminate). }
  split_and!.
  - intros residue. specialize (Hacc residue).
    unfold vis_rmde.accept_residue in *.
    destruct (_ && _); [left|right]; split; try done.
    + by apply Hacc.
    + intros Hin. apply Hacc in Hin. discriminate.
  - done.
  - rewrite (extract_ca_atoms_chain _ _ _ _ _ _ Hm Hc). f_equal.
    unfold window_ca. f_equal. apply list_filter_iff. intros residue.
    symmetry. apply Hacc.
Qed.

Lemma accept_residue_window_witness :
  vis_rmde.extract_ca_atoms Ex.structure_10_20 "A" 10 20
  = Ok (omap (fun residue => atom_named "CA" (atoms residue))
          (filter (fun residue =>
                     vis_rmde.accept_residue
                       {| vis_rmde.chain_id := "B";
                          vis_rmde.start_res := 10;
                          vis_rmde.end_res := 20 |} residue = 1)
                  (residues Ex.chain_10_20))).
Proof.
  refine (proj2 (proj2 (accept_residue_window
    {| vis_rmde.chain_id := "B"; vis_rmde.start_res := 10;
       vis_rmde.end_res := 20 |}
    Ex.structure_10_20 _ Ex.chain_10_20 "A" eq_refl eq_refl))).
Defined.

(** ** More on the top list and the benchmark index *)

(** X8.  [parse_top_list] never raises; the dictionary it returns has one
    item per pdb id that occurs on a line with at least two fields that is
    neither blank nor a comment, and the item of an id is the second field
    of the last such line. *)
Theorem parse_top_list_lookup (lines : list string) :
  ∃ top_dict,
    RMSD_Q.parse_top_list lines = Ok top_dict ∧
    NoDup top_dict.*1 ∧
    (∀ pdb_id, pdb_id ∈ top_dict.*1 ↔ pdb_id ∈ (omap top_entry lines).*1) ∧
    (∀ pdb_id,
       dict_get pdb_id top_dict
       = snd <$> last (filter (fun item => item.1 = pdb_id)
                              (omap top_entry lines))).
Proof.
  exists (dict_of_items (omap top_entry lines)). split_and!.
  - apply parse_top_list_items.
  - apply dict_of_items_NoDup.
  - intros pdb_id. apply dict_of_items_keys.
  - intros pdb_id. apply dict_of_items_get.
Qed.

Section index_more.
Context `{PyInt}.


(** X10.  With a limit on integer digits in force, a line of the index
    that is accepted and carries a number longer than the limit makes both
    copies of [parse_index_file] raise [ValueError], which nothing
    catches. *)
Theorem parse_index_file_overflow (pre post : list string) (line : string)
    (pdb_id chain_id group1 group2 : string) :
  Forall within_int_limit pre →
  index_entry line = Some (pdb_id, chain_id, (group1, group2)) →
  (0 < int_max_str_digits)%nat →
  (int_max_str_digits < String.length group1)%nat ∨
  (int_max_str_digits < String.length group2)%nat →
  RMSD_Q.parse_index_file (pre ++ line :: post) = Raise ValueError ∧
  RMSD_af.parse_index_file (pre ++ line :: post) = Raise ValueError.
Proof.
  intros Hpre Hentry Hon Hlong.
  assert (RMSD_Q.parse_index_file (pre ++ line :: post) = Raise ValueError)
    as Hq; [|split; [done|by rewrite parse_index_file_af]].
  pose proof (parse_index_file_items pre Hpre) as Hrun.
  unfold RMSD_Q.parse_index_file in *. rewrite for_in_app, Hrun. simpl.
  rewrite parse_index_file_body, Hentry. unfold int_of_digits.
  replace (0 <? int_max_str_digits)%nat with true
    by (symmetry; by apply Nat.ltb_lt).
  simpl.
  destruct (int_max_str_digits <? String.length group1)%nat eqn:H1; [done|].
  simpl. apply Nat.ltb_ge in H1.
  replace (int_max_str_digits <? String.length group2)%nat with true; [done|].
  symmetry. apply Nat.ltb_lt. lia.
Qed.
End index_more.

(** ** More on the batch drivers *)

Section drivers_more.
Context `{PyFloat} `{!Superimposer} `{!PyInt} `{!PyFormat} `{!FileSystem}.
Implicit Types h : gmap loc coord.

(** The loop body of RMSD_Q.py, decision after decision. *)
Lemma Q_main_body_unfold index_dict pdb_id top_name h :
  let pred_path := path_join (path_join RMSD_Q.PREDICTED_DIR pdb_id)
                     (pdb_id +:+ "_" +:+ top_name +:+ ".pdbqt") in
  let real_pdb := path_join (path_join RMSD_Q.REAL_STRUCT_DIR pdb_id)
                    (pdb_id +:+ "_protein.pdb") in
  RMSD_Q.main_body index_dict pdb_id top_name h =
  match dict_get pdb_id index_dict with
  | None => Ok (RMSD_Q.NotInIndex, h)
  | Some (chain_id, start_res, end_res) =>
      if end_res - start_res + 1 <=? 0
      then Ok (RMSD_Q.InvalidRange start_res end_res, h)
      else if negb (isfile pred_path)
      then Ok (RMSD_Q.PredictedNotFound pred_path, h)
      else if negb (isfile real_pdb)
      then Ok (RMSD_Q.RealNotFound real_pdb, h)
      else
        match RMSD_Q.parse_pdbqt (readlines pred_path)
                (end_res - start_res + 1) with
        | Raise e => Raise e
        | Ok pred_coords =>
            match RMSD_Q.parse_real_pdb (get_structure real_pdb) chain_id
                    start_res end_res with
            | Raise e => Raise e
            | Ok real_coords =>
                if bool_decide (length pred_coords ≠ length real_coords)
                   || bool_decide (length pred_coords = 0%nat)
                then Ok (RMSD_Q.CountMismatch (length pred_coords)
                           (length real_coords), h)
                else
                  match RMSD_Q.compute_rmsd pred_coords real_coords h with
                  | Ok (Some v, h') => Ok (RMSD_Q.Rmsd v, h')
                  | Ok (None, h') => Ok (RMSD_Q.CannotCompute, h')
                  | Raise e => Raise e
                  end
            end
        end
  end.
Proof.
  intros pred_path real_pdb.
  unfold RMSD_Q.main_body, dict_contains, dict_getitem.
  destruct (dict_get pdb_id index_dict) as [[[chain_id start_res] end_res]|];
    [|done].
  simpl. rewrite M_bind_lift. simpl.
  destruct (end_res - start_res + 1 <=? 0); [done|].
  fold pred_path real_pdb.
  destruct (isfile pred_path); [|done]. simpl.
  destruct (isfile real_pdb); [|done]. simpl.
  rewrite M_bind_lift.
  destruct (RMSD_Q.parse_pdbqt _ _) as [pred_coords|e]; [|done].
  rewrite M_bind_lift.
  destruct (RMSD_Q.parse_real_pdb _ _ _ _) as [real_coords|e]; [|done].
  destruct (bool_decide (length pred_coords ≠ length real_coords)
            || bool_decide (length pred_coords = 0%nat)); [done|].
  unfold mbind, M_bind.
  by destruct (RMSD_Q.compute_rmsd pred_coords real_coords h)
    as [[[v|] h']|e].
Qed.

Lemma af_main_body_unfold pdb_id chain_id start_res end_res h :
  let pred_file := path_join (path_join RMSD_af.AF2_PDBQT_DIR pdb_id)
                     (pdb_id +:+ ".pdbqt") in
  let real_file := path_join (path_join RMSD_af.REAL_STRUCT_DIR pdb_id)
                     (pdb_id +:+ "_protein.pdb") in
  RMSD_af.main_body pdb_id chain_id start_res end_res h =
  if end_res - start_res + 1 <=? 0 then Ok (RMSD_af.InvalidRange, h)
  else if negb (isfile pred_file)
  then Ok (RMSD_af.PredictedNotFound pred_file, h)
  else if negb (isfile real_file)
  then Ok (RMSD_af.RealNotFound real_file, h)
  else
    match RMSD_af.parse_pdbqt (readlines pred_file)
            (end_res - start_res + 1) with
    | Raise e => Raise e
    | Ok pred_coords =>
        match RMSD_af.parse_real_pdb (get_structure real_file) chain_id
                start_res end_res with
        | Raise e => Raise e
        | Ok real_coords =>
            if bool_decide (length pred_coords ≠ length real_coords)
               || bool_decide (length pred_coords = 0%nat)
            then Ok (RMSD_af.CountMismatch (length pred_coords)
                       (length real_coords), h)
            else
              match RMSD_af.compute_rmsd real_coords pred_coords h with
              | Ok (Some v, h') => Ok (RMSD_af.Rmsd v, h')
              | Ok (None, h') => Ok (RMSD_af.CannotCompute, h')
              | Raise e => Raise e
              end
        end
    end.
Proof.
  intros pred_file real_file. unfold RMSD_af.main_body.
  destruct (end_res - start_res + 1 <=? 0); [done|].
  fold pred_file real_file.
  destruct (isfile pred_file); [|done]. simpl.
  destruct (isfile real_file); [|done]. simpl.
  rewrite M_bind_lift.
  destruct (RMSD_af.parse_pdbqt _ _) as [pred_coords|e]; [|done].
  rewrite M_bind_lift.
  destruct (RMSD_af.parse_real_pdb _ _ _ _) as [real_coords|e]; [|done].
  destruct (bool_decide (length pred_coords ≠ length real_coords)
            || bool_decide (length pred_coords = 0%nat)); [done|].
  unfold mbind, M_bind.
  by destruct (RMSD_af.compute_rmsd real_coords pred_coords h)
    as [[[v|] h']|e].
Qed.


(** X12.  What a report of RMSD_Q.py tells: "not in benchmark index" means
    the id has no index entry; "invalid residue range" that the entry
    ends before it starts; a "not found" report names a path that is no
    file; a count mismatch carries the lengths of the two coordinate
    lists, which differ or are both 0, the predicted one never above the
    segment length; and an RMSD value is the one the superimposer gives
    with the predicted coordinates as the fixed list and the real ones
    as the moving list, both of the same non-zero length. *)
Theorem Q_report_sound (index_dict : dict (string * Z * Z))
    (pdb_id top_name : string) h (r : RMSD_Q.report) h' :
  RMSD_Q.main_body index_dict pdb_id top_name h = Ok (r, h') →
  let pred_path := path_join (path_join RMSD_Q.PREDICTED_DIR pdb_id)
                     (pdb_id +:+ "_" +:+ top_name +:+ ".pdbqt") in
  let real_pdb := path_join (path_join RMSD_Q.REAL_STRUCT_DIR pdb_id)
                    (pdb_id +:+ "_protein.pdb") in
  match r with
  | RMSD_Q.NotInIndex => dict_get pdb_id index_dict = None
  | RMSD_Q.InvalidRange start_res end_res =>
      (∃ chain_id,
         dict_get pdb_id index_dict = Some (chain_id, start_res, end_res)) ∧
      end_res < start_res
  | RMSD_Q.PredictedNotFound p => p = pred_path ∧ isfile p = false
  | RMSD_Q.RealNotFound p =>
      p = real_pdb ∧ isfile pred_path = true ∧ isfile p = false
  | RMSD_Q.CannotCompute => False
  | RMSD_Q.CountMismatch n_pred n_real =>
      ∃ chain_id start_res end_res pred_coords real_coords,
        dict_get pdb_id index_dict = Some (chain_id, start_res, end_res) ∧
        RMSD_Q.parse_pdbqt (readlines pred_path) (end_res - start_res + 1)
          = Ok pred_coords ∧
        RMSD_Q.parse_real_pdb (get_structure real_pdb) chain_id start_res
          end_res = Ok real_coords ∧
        n_pred = length pred_coords ∧ n_real = length real_coords ∧
        (n_pred ≠ n_real ∨ n_pred = 0%nat) ∧
        Z.of_nat n_pred ≤ end_res - start_res + 1
  | RMSD_Q.Rmsd v =>
      ∃ chain_id start_res end_res pred_coords real_coords,
        dict_get pdb_id index_dict = Some (chain_id, start_res, end_res) ∧
        RMSD_Q.parse_pdbqt (readlines pred_path) (end_res - start_res + 1)
          = Ok pred_coords ∧
        RMSD_Q.parse_real_pdb (get_structure real_pdb) chain_id start_res
          end_res = Ok real_coords ∧
        length pred_coords = length real_coords ∧
        (1 ≤ length pred_coords)%nat ∧
        Z.of_nat (length pred_coords) ≤ end_res - start_res + 1 ∧
        v = (superimpose pred_coords real_coords).1
  end.
Proof.
  intros Hrun pred_path real_pdb. revert Hrun.
  rewrite Q_main_body_unfold. fold pred_path real_pdb.
  destruct (dict_get pdb_id index_dict) as [[[chain_id start_res] end_res]|]
    eqn:Hget; [|by intros [= <- <-]].
  destruct (end_res - start_res + 1 <=? 0) eqn:Hseg.
  { intros [= <- <-]. apply Z.leb_le in Hseg. split; [by eexists|lia]. }
  apply Z.leb_gt in Hseg.
  destruct (isfile pred_path) eqn:Hpred; simpl; [|by intros [= <- <-]].
  destruct (isfile real_pdb) eqn:Hreal; simpl; [|by intros [= <- <-]].
  destruct (RMSD_Q.parse_pdbqt _ _) as [pred_coords|e] eqn:Hpc; [|done].
  destruct (RMSD_Q.parse_real_pdb _ _ _ _) as [real_coords|e] eqn:Hrc;
    [|done].
  assert (1 ≤ end_res - start_res + 1) as Hone by lia.
  pose proof (parse_pdbqt_length _ _ _ Hone Hpc) as Hbound.
  destruct (bool_decide (length pred_coords ≠ length real_coords)) eqn:Hlen;
    simpl.
  { intros [= <- <-]. apply bool_decide_eq_true in Hlen.
    exists chain_id, start_res, end_res, pred_coords, real_coords.
    split_and!; auto. }
  destruct (bool_decide (length pred_coords = 0%nat)) eqn:Hnil; simpl.
  { intros [= <- <-]. apply bool_decide_eq_true in Hnil.
    exists chain_id, start_res, end_res, pred_coords, real_coords.
    split_and!; auto. }
  apply bool_decide_eq_false in Hlen, Hnil. apply dec_stable in Hlen.
  destruct (compute_rmsd_runs pred_coords real_coords h Hlen)
    as (h1 & -> & _); [by destruct pred_coords|].
  intros [= <- <-].
  exists chain_id, start_res, end_res, pred_coords, real_coords.
  split_and!; auto. lia.
Qed.

(** X13.  The same for RMSD_af.py, whose RMSD value is the one the
    superimposer gives with the real coordinates as the fixed list and
    the predicted ones as the moving list: the two drivers pass the lists
    in opposite orders. *)
Theorem af_report_sound (pdb_id chain_id : string) (start_res end_res : Z)
    h (r : RMSD_af.report) h' :
  RMSD_af.main_body pdb_id chain_id start_res end_res h = Ok (r, h') →
  let pred_file := path_join (path_join RMSD_af.AF2_PDBQT_DIR pdb_id)
                     (pdb_id +:+ ".pdbqt") in
  let real_file := path_join (path_join RMSD_af.REAL_STRUCT_DIR pdb_id)
                     (pdb_id +:+ "_protein.pdb") in
  match r with
  | RMSD_af.InvalidRange => end_res < start_res
  | RMSD_af.PredictedNotFound p => p = pred_file ∧ isfile p = false
  | RMSD_af.RealNotFound p =>
      p = real_file ∧ isfile pred_file = true ∧ isfile p = false
  | RMSD_af.CannotCompute => False
  | RMSD_af.CountMismatch n_pred n_real =>
      ∃ pred_coords real_coords,
        RMSD_af.parse_pdbqt (readlines pred_file) (end_res - start_res + 1)
          = Ok pred_coords ∧
        RMSD_af.parse_real_pdb (get_structure real_file) chain_id start_res
          end_res = Ok real_coords ∧
        n_pred = length pred_coords ∧ n_real = length real_coords ∧
        (n_pred ≠ n_real ∨ n_pred = 0%nat) ∧
        Z.of_nat n_pred ≤ end_res - start_res + 1
  | RMSD_af.Rmsd v =>
      ∃ pred_coords real_coords,
        RMSD_af.parse_pdbqt (readlines pred_file) (end_res - start_res + 1)
          = Ok pred_coords ∧
        RMSD_af.parse_real_pdb (get_structure real_file) chain_id start_res
          end_res = Ok real_coords ∧
        length pred_coords = length real_coords ∧
        (1 ≤ length pred_coords)%nat ∧
        Z.of_nat (length pred_coords) ≤ end_res - start_res + 1 ∧
        v = (superimpose real_coords pred_coords).1
  end.
Proof.
  intros Hrun pred_file real_file. revert Hrun.
  rewrite af_main_body_unfold. fold pred_file real_file.
  destruct (end_res - start_res + 1 <=? 0) eqn:Hseg.
  { intros [= <- <-]. apply Z.leb_le in Hseg. lia. }
  apply Z.leb_gt in Hseg.
  destruct (isfile pred_file) eqn:Hpred; simpl; [|by intros [= <- <-]].
  destruct (isfile real_file) eqn:Hreal; simpl; [|by intros [= <- <-]].
  destruct (RMSD_af.parse_pdbqt _ _) as [pred_coords|e] eqn:Hpc; [|done].
  destruct (RMSD_af.parse_real_pdb _ _ _ _) as [real_coords|e] eqn:Hrc;
    [|done].
  assert (1 ≤ end_res - start_res + 1) as Hone by lia.
  pose proof (parse_pdbqt_length _ _ _ Hone Hpc) as Hbound.
  destruct (bool_decide (length pred_coords ≠ length real_coords)) eqn:Hlen;
    simpl.
  { intros [= <- <-]. apply bool_decide_eq_true in Hlen.
    exists pred_coords, real_coords. split_and!; auto. }
  destruct (bool_decide (length pred_coords = 0%nat)) eqn:Hnil; simpl.
  { intros [= <- <-]. apply bool_decide_eq_true in Hnil.
    exists pred_coords, real_coords. split_and!; auto. }
  apply bool_decide_eq_false in Hlen, Hnil. apply dec_stable in Hlen.
  destruct (compute_rmsd_runs real_coords pred_coords h (eq_sym Hlen))
    as (h1 & Hrun & _).
  { intros ->. apply Hnil. by rewrite Hlen. }
  rewrite compute_rmsd_af, Hrun. intros [= <- <-].
  exists pred_coords, real_coords. split_and!; auto. lia.
Qed.
End drivers_more.

Section drivers_main.
Context `{PyFloat} `{!Superimposer} `{!PyInt} `{!PyFormat} `{!FileSystem}.
Implicit Types h : gmap loc coord.





End drivers_main.

(** ** More on [vis_rmde.main] *)

Section vis_main.
Context `{PyFloat} `{!Superimposer}.
Implicit Types h : gmap loc coord.

(** X17.  [main] of vis_rmde.py writes to the store only when it aligns:
    when it reports missing alpha carbons or a count mismatch the store is
    as before.  A mismatch is reported for two non-empty extractions of
    different lengths, and an alignment only for two of one non-zero
    length. *)
Theorem vis_main_outcome (ref_structure pred_structure : Structure loc) h
    (o : vis_rmde.outcome float) h' :
  vis_rmde.main ref_structure pred_structure h = Ok (o, h') →
  ∃ ref_ca,
    vis_rmde.extract_ca_atoms ref_structure vis_rmde.CHAIN_ID
      vis_rmde.REF_START_RES vis_rmde.REF_END_RES = Ok ref_ca ∧
    match o with
    | vis_rmde.NoRefCA => h' = h ∧ ref_ca = []
    | vis_rmde.NoPredCA =>
        h' = h ∧ ref_ca ≠ [] ∧
        vis_rmde.extract_ca_atoms pred_structure vis_rmde.CHAIN_ID
          vis_rmde.PRED_START vis_rmde.PRED_END = Ok []
    | vis_rmde.Mismatch n_ref n_pred =>
        h' = h ∧ n_ref ≠ n_pred ∧ n_ref ≠ 0%nat ∧ n_pred ≠ 0%nat ∧
        length ref_ca = n_ref ∧
        ∃ pred_ca,
          vis_rmde.extract_ca_atoms pred_structure vis_rmde.CHAIN_ID
            vis_rmde.PRED_START vis_rmde.PRED_END = Ok pred_ca ∧
          length pred_ca = n_pred
    | vis_rmde.Aligned _ =>
        ref_ca ≠ [] ∧
        ∃ pred_ca,
          vis_rmde.extract_ca_atoms pred_structure vis_rmde.CHAIN_ID
            vis_rmde.PRED_START vis_rmde.PRED_END = Ok pred_ca ∧
          length pred_ca = length ref_ca
    end.
Proof.
  unfold vis_rmde.main. rewrite M_bind_lift.
  destruct (vis_rmde.extract_ca_atoms ref_structure _ _ _) as [ref_ca|e];
    [|done].
  intros Hrun. exists ref_ca. split; [done|]. revert Hrun.
  destruct (bool_decide (ref_ca = [])) eqn:Href.
  { apply bool_decide_eq_true in Href. by intros [= <- <-]. }
  apply bool_decide_eq_false in Href. rewrite M_bind_lift.
  destruct (vis_rmde.extract_ca_atoms pred_structure _ _ _) as [pred_ca|e];
    [|done].
  destruct (bool_decide (pred_ca = [])) eqn:Hpred.
  { apply bool_decide_eq_true in Hpred as ->. by intros [= <- <-]. }
  apply bool_decide_eq_false in Hpred.
  destruct (bool_decide (length ref_ca ≠ length pred_ca)) eqn:Hlen.
  { apply bool_decide_eq_true in Hlen. intros [= <- <-].
    split_and!; [done..| | |done|by exists pred_ca].
    - by destruct ref_ca.
    - by destruct pred_ca. }
  apply bool_decide_eq_false, dec_stable in Hlen.
  unfold mbind, M_bind.
  destruct (set_atoms ref_ca pred_ca h) as [[sup h1]|e]; [|done].
  destruct (apply sup.2 (get_atoms pred_structure) h1) as [[[] h2]|e];
    [|done].
  intros [= <- <-]. split; [done|]. by exists pred_ca.
Qed.

(** X18.  [main] of vis_rmde.py does not survive a missing chain: when
    model 0 of a structure has no chain "A", [main] raises [KeyError] on
    that id, be the structure the reference one, or the predicted one
    next to a reference with alpha carbons in its window. *)
Theorem vis_main_missing_chain (s : Structure loc) (m : Model loc) h :
  structure_getitem s 0 = Ok m →
  Forall (fun c => chain_id c ≠ vis_rmde.CHAIN_ID) (chains m) →
  (∀ pred_structure,
     vis_rmde.main s pred_structure h
     = Raise (KeyError (KStr vis_rmde.CHAIN_ID))) ∧
  (∀ ref_structure ref_ca,
     vis_rmde.extract_ca_atoms ref_structure vis_rmde.CHAIN_ID
       vis_rmde.REF_START_RES vis_rmde.REF_END_RES = Ok ref_ca →
     ref_ca ≠ [] →
     vis_rmde.main ref_structure s h
     = Raise (KeyError (KStr vis_rmde.CHAIN_ID))).
Proof.
  intros Hm Hno.
  assert (∀ start_res end_res,
    vis_rmde.extract_ca_atoms s vis_rmde.CHAIN_ID start_res end_res
    = Raise (KeyError (KStr vis_rmde.CHAIN_ID))) as Hraise.
  { intros start_res end_res. unfold vis_rmde.extract_ca_atoms.
    rewrite Hm. simpl. rewrite model_getitem_missing; [done|].
    intros c Hc. rewrite Forall_forall in Hno. by apply Hno. }
  split.
  - intros pred_structure. unfold vis_rmde.main.
    by rewrite M_bind_lift, Hraise.
  - intros ref_structure ref_ca Href Hne. unfold vis_rmde.main.
    rewrite M_bind_lift, Href. rewrite bool_decide_eq_false_2 by done.
    by rewrite M_bind_lift, Hraise.
Qed.
End vis_main.

(** ** The copies of the index parser and of the structure reader *)

(** X19.  The copies of [parse_index_file] and of [parse_real_pdb] in
    RMSD_Q.py and in RMSD_af.py return the same result on every input. *)
Theorem RMSD_copies_agree_more `{PyFloat} `{!PyInt} :
  (∀ lines : list string,
     RMSD_Q.parse_index_file lines = RMSD_af.parse_index_file lines) ∧
  (∀ (s : Structure Atom) (cid : string) (start_res end_res : Z),
     RMSD_Q.parse_real_pdb s cid start_res end_res
     = RMSD_af.parse_real_pdb s cid start_res end_res).
Proof.
  split.
  - intros lines. symmetry. apply parse_index_file_af.
  - intros s cid start_res end_res. symmetry. apply parse_real_pdb_af.
Qed.

(** ** Reading back a line of the benchmark index *)

Lemma string_app_cons x (a b : string) : String x a +:+ b = String x (a +:+ b).
Proof. reflexivity. Qed.






Lemma nonspace_app (a b : string) :
  nonspace (a +:+ b) = nonspace a && nonspace b.
Proof.
  induction a as [|x a IH]; [done|].
  rewrite string_app_cons. cbn [nonspace]. by rewrite IH, andb_assoc.
Qed.




Lemma rstrip_token t : token t → rstrip t = t.
Proof.
  intros [Hne Ht]. induction t as [|a t IH]; [done|].
  cbn [nonspace] in Ht. apply andb_true_iff in Ht as [Ha Ht].
  apply negb_true_iff in Ha. cbn [rstrip].
  destruct t as [|b t]; [by rewrite Ha|].
  rewrite IH by done. done.
Qed.

Lemma rstrip_app_token x t : token t → rstrip (x +:+ t) = x +:+ t.
Proof.
  intros Ht. induction x as [|a x IH]; [by apply rstrip_token|].
  rewrite string_app_cons. cbn [rstrip]. rewrite IH.
  destruct (x +:+ t) eqn:Hxt; [|done].
  destruct Ht as [Hne _]. destruct x; [done|discriminate Hxt].
Qed.


(** Decimal numerals. *)
Lemma string_of_uint_digits d a :
  a ∈ list_ascii_of_string (NilEmpty.string_of_uint d) →
  isdigit a = true ∧ isspace a = false.
Proof.
  induction d as [|d IH|d IH|d IH|d IH|d IH|d IH|d IH|d IH|d IH|d IH];
    simpl; [by intros ?%elem_of_nil|..];
    (intros [->|Hin]%elem_of_cons; [by vm_compute|by apply IH]).
Qed.


Lemma str_of_nat_digits n a :
  a ∈ list_ascii_of_string (str_of_nat n) →
  isdigit a = true ∧ isspace a = false.
Proof. apply string_of_uint_digits. Qed.


Lemma nonspace_chars s :
  (∀ a, a ∈ list_ascii_of_string s → isspace a = false) → nonspace s = true.
Proof.
  induction s as [|a s IH]; [done|]. intros Hs. cbn [nonspace].
  rewrite (Hs a) by (simpl; left). simpl. apply IH.
  intros b Hb. apply Hs. simpl. by right.
Qed.

Lemma str_of_nat_nonspace n : nonspace (str_of_nat n) = true.
Proof.
  apply nonspace_chars. intros a Ha.
  by destruct (str_of_nat_digits n a Ha).
Qed.









Lemma residue_pat_search_cons a s :
  RMSD_Q.residue_pat_search (String a s)
  = match RMSD_Q.residue_pat_match (String a s) with
    | Some groups => Some groups
    | None => RMSD_Q.residue_pat_search s
    end.
Proof. reflexivity. Qed.


Lemma residue_pat_search_skip a s :
  Ascii.eqb (lower a) "r" = false →
  RMSD_Q.residue_pat_search (String a s) = RMSD_Q.residue_pat_search s.
Proof.
  intros Ha. rewrite residue_pat_search_cons.
  unfold RMSD_Q.residue_pat_match. cbn [after_prefix_nocase].
  by rewrite Ha.
Qed.


Lemma split_go_space sp s :
  isspace sp = true → split_go None (String sp s) = split_go None s.
Proof. intros Hsp. cbn [split_go]. by rewrite Hsp. Qed.



Section read_back.
Context (pdb_id chain_id seq : string) (start_res end_res len : nat).
Hypothesis Hid : token pdb_id.
Hypothesis Hchain : token chain_id.
Hypothesis Hseq : token seq.



End read_back.


(** ** Worked instances of the further properties *)

Import ExBatch.

Lemma parse_pdbqt_small_length_witness :
  0 ≤ 1 ∧ RMSD_Q.parse_pdbqt Ex.pdbqt_lines 0 = Ok [(1, 2, 3)%Q].
Proof.
  assert (0 ≤ 1) as HN by lia. split; [exact HN|].
  exact (proj1 (parse_pdbqt_small_length Ex.pdbqt_lines 0 HN)).
Defined.

Lemma parse_pdbqt_app_witness :
  1 ≤ 4 ∧
  RMSD_Q.parse_pdbqt (Ex.pdbqt_lines ++ Ex.one_ca_line) 2
    = RMSD_Q.parse_pdbqt Ex.pdbqt_lines 2 ∧
  ∃ coords2,
    RMSD_Q.parse_pdbqt Ex.one_ca_line
      (4 - Z.of_nat (length (ca_entries Ex.pdbqt_lines))) = Ok coords2 ∧
    RMSD_Q.parse_pdbqt (Ex.pdbqt_lines ++ Ex.one_ca_line) 4
      = Ok (ca_entries Ex.pdbqt_lines ++ coords2).
Proof.
  assert (1 ≤ 4) as H4 by lia. assert (1 ≤ 2) as H2 by lia.
  split_and!; [exact H4| |].
  - apply (proj1 (parse_pdbqt_app Ex.pdbqt_lines Ex.one_ca_line 2 H2)).
    vm_compute. discriminate.
  - apply (proj2 (parse_pdbqt_app Ex.pdbqt_lines Ex.one_ca_line 4 H4)).
    vm_compute. reflexivity.
Defined.

Lemma parse_pdbqt_prefix_witness :
  1 ≤ 1 ∧ 1 ≤ 3 ∧
  ∃ coords coords',
    RMSD_Q.parse_pdbqt Ex.pdbqt_lines 1 = Ok coords ∧
    RMSD_Q.parse_pdbqt Ex.pdbqt_lines 3 = Ok coords' ∧
    coords `prefix_of` coords'.
Proof.
  assert (1 ≤ 1) as H1 by lia. assert (1 ≤ 3) as H3 by lia.
  split_and!; [exact H1|exact H3|].
  exact (parse_pdbqt_prefix Ex.pdbqt_lines 1 3 H1 H3).
Defined.

Lemma extract_ca_atoms_sublist_witness :
  vis_rmde.extract_ca_atoms Ex.structure_10_20 "A" 10 20
    = Ok (window_ca Ex.chain_10_20 10 20) ∧
  window_ca Ex.chain_10_20 10 20 `sublist_of` get_atoms Ex.structure_10_20.
Proof.
  assert (vis_rmde.extract_ca_atoms Ex.structure_10_20 "A" 10 20
          = Ok (window_ca Ex.chain_10_20 10 20)) as Hex by reflexivity.
  split; [exact Hex|].
  exact (proj1 (extract_ca_atoms_sublist _ _ _ _ _ Hex)).
Defined.

Lemma empty_window_witness :
  10 < 20 ∧
  RMSD_Q.parse_real_pdb Ex.structure_10_20 "A" 20 10 = Ok [] ∧
  vis_rmde.extract_ca_atoms Ex.structure_10_20 "A" 20 10 = Ok [].
Proof.
  assert (10 < 20) as Hlt by lia.
  destruct (empty_window Ex.structure_10_20 Ex.model_10_20 Ex.chain_10_20
              "A" 20 10 Hlt) as (Hq & _ & Hex).
  split_and!; [exact Hlt|exact Hq|].
  apply Hex; reflexivity.
Defined.

Lemma index_lines_within_limit : Forall within_int_limit index_lines.
Proof. repeat constructor; right; vm_compute; lia. Qed.


Lemma parse_index_file_overflow_witness :
  index_entry long_line = Some ("1e2k", "A", (long_number, "5")) ∧
  (4300 < String.length long_number)%nat ∧
  RMSD_Q.parse_index_file (index_lines ++ [long_line]) = Raise ValueError.
Proof.
  assert (index_entry long_line = Some ("1e2k", "A", (long_number, "5")))
    as Hentry by (vm_compute; reflexivity).
  assert (4300 < String.length long_number)%nat as Hlong
    by (vm_compute; lia).
  split_and!; [exact Hentry|exact Hlong|].
  apply (parse_index_file_overflow index_lines [] long_line
           "1e2k" "A" long_number "5" index_lines_within_limit Hentry).
  - vm_compute. lia.
  - left. exact Hlong.
Defined.

Lemma Q_report_sound_witness :
  ∃ h',
    RMSD_Q.main_body [("1e2k", ("A", 1, 1))] "1e2k" "top_1" ∅
      = Ok (RMSD_Q.Rmsd 0%Q, h') ∧
    ∃ pred_coords real_coords : list coord,
      RMSD_Q.parse_pdbqt (readlines pred_path_1e2k) 1 = Ok pred_coords ∧
      length pred_coords = length real_coords ∧
      0%Q = (superimpose pred_coords real_coords).1.
Proof.
  eexists. split; [vm_compute; reflexivity|].
  pose proof (Q_report_sound [("1e2k", ("A", 1, 1))] "1e2k" "top_1" ∅
                (RMSD_Q.Rmsd 0%Q) _ eq_refl)
    as (c & s & e & pred_coords & real_coords & Hget & Hpc & _ & Hlen & _
        & _ & Hv).
  injection Hget as <- <- <-.
  exists pred_coords, real_coords. split_and!; [exact Hpc|exact Hlen|exact Hv].
Defined.

Lemma af_report_sound_witness :
  ∃ h',
    RMSD_af.main_body "2xyz" "B" 60 55 ∅ = Ok (RMSD_af.InvalidRange, h') ∧
    55 < 60.
Proof.
  exists ∅. split; [reflexivity|].
  exact (af_report_sound "2xyz" "B" 60 55 ∅ RMSD_af.InvalidRange ∅ eq_refl).
Defined.







Lemma vis_main_outcome_witness :
  vis_rmde.main Ex.ref_structure Ex.pred_structure Ex.store_before
    = Ok (vis_rmde.Aligned 0%Q, Ex.store_after) ∧
  ∃ ref_ca pred_ca : list loc,
    vis_rmde.extract_ca_atoms Ex.pred_structure vis_rmde.CHAIN_ID
      vis_rmde.PRED_START vis_rmde.PRED_END = Ok pred_ca ∧
    length pred_ca = length ref_ca ∧ ref_ca ≠ [].
Proof.
  assert (vis_rmde.main Ex.ref_structure Ex.pred_structure Ex.store_before
          = Ok (vis_rmde.Aligned 0%Q, Ex.store_after)) as Hrun
    by (vm_compute; reflexivity).
  split; [exact Hrun|].
  destruct (vis_main_outcome _ _ _ _ _ Hrun)
    as (ref_ca & _ & Hne & pred_ca & Hpred & Hlen).
  by exists ref_ca, pred_ca.
Defined.

Lemma vis_main_missing_chain_witness :
  vis_rmde.main
    {| models := [ {| model_id := 0; chains := [] |} ] |}
    Ex.pred_structure Ex.store_before
  = Raise (KeyError (KStr "A")) ∧
  vis_rmde.main Ex.ref_structure
    {| models := [ {| model_id := 0; chains := [] |} ] |} Ex.store_before
  = Raise (KeyError (KStr "A")).
Proof.
  destruct (vis_main_missing_chain (H := dec_float)
              {| models := [ {| model_id := 0; chains := [] |} ] |}
              {| model_id := 0; chains := [] |} Ex.store_before
              eq_refl (Forall_nil_2 _)) as [Href Hpred].
  split; [apply Href|].
  apply (Hpred Ex.ref_structure [1%nat]); [reflexivity|discriminate].
Defined.

